(** * ecco_access.ecco_s3_retrieve: catalogue query, download orchestration
      and disk-aware dispatch

    A shallow embedding of [src/ecco_access/ecco_s3_retrieve.py].  Python
    strings are [string]; byte counts, nanosecond timestamps and day numbers
    are [Z]; a float64 is the rational it denotes, and the operations on
    floats round as IEEE binary64 does.  The services the
    module talks to (the CMR catalogue, the object store, the local file
    system) are fields of an explicit [World] that every function threads,
    exceptions are a constructor of the outcome, and the two [while] loops
    take a bound on their number of iterations.

    Outside the model: the overflow, underflow and [nan] arguments of
    float64, byte counts that do not fit 64 bits, and the range of
    [datetime64[ns]]. *)

From Stdlib Require Import String Ascii List ZArith QArith Qminmax Lia Bool Arith Sorted.
Import ListNotations.

Local Open Scope string_scope.
Local Open Scope list_scope.

(** ** Strings, as the module uses them *)

Module Str.

(** [s[n:]] *)
Fixpoint drop (n : nat) (s : string) : string :=
  match n, s with
  | O, _ => s
  | S _, EmptyString => EmptyString
  | S n', String _ r => drop n' r
  end.

(** [s.startswith(p)] *)
Fixpoint startswith (p s : string) : bool :=
  match p, s with
  | EmptyString, _ => true
  | String _ _, EmptyString => false
  | String a p', String b s' => Ascii.eqb a b && startswith p' s'
  end.

(** [needle in hay] *)
Fixpoint contains (needle hay : string) : bool :=
  startswith needle hay
  || match hay with
     | EmptyString => false
     | String _ r => contains needle r
     end.

(** membership of a string in a list of strings *)
Definition mem (x : string) (l : list string) : bool :=
  existsb (String.eqb x) l.

Definition is_digit (c : ascii) : bool :=
  (48 <=? nat_of_ascii c)%nat && (nat_of_ascii c <=? 57)%nat.

Definition digit_val (c : ascii) : Z := Z.of_nat (nat_of_ascii c) - 48.

Definition digit_char (d : Z) : ascii := ascii_of_nat (Z.to_nat (d + 48)).

End Str.

(** ** [os.path] (POSIX flavour) *)

Module Path.

Definition sep : ascii := "/"%char.

(** The text after the last separator of [s]; [acc] is what has been read
    since the last separator seen. *)
Fixpoint after_last_sep (s acc : string) : string :=
  match s with
  | EmptyString => acc
  | String c r =>
      if Ascii.eqb c sep then after_last_sep r EmptyString
      else after_last_sep r (acc ++ String c EmptyString)
  end.

(** [os.path.basename(p)]: [p[p.rfind('/')+1:]] *)
Definition basename (p : string) : string := after_last_sep p EmptyString.

(** [p[:p.rfind('/')+1]]: everything up to and including the last separator *)
Fixpoint upto_last_sep (s : string) : string :=
  match s with
  | EmptyString => EmptyString
  | String c r =>
      if Str.contains "/" s then String c (upto_last_sep r) else EmptyString
  end.

Fixpoint all_sep (s : string) : bool :=
  match s with
  | EmptyString => true
  | String c r => Ascii.eqb c sep && all_sep r
  end.

(** [s.rstrip('/')] *)
Fixpoint rstrip_sep (s : string) : string :=
  match s with
  | EmptyString => EmptyString
  | String c r => if all_sep s then EmptyString else String c (rstrip_sep r)
  end.

(** [os.path.split(p)]:
    [i = p.rfind(sep) + 1; head, tail = p[:i], p[i:];
     if head and head != sep*len(head): head = head.rstrip(sep)] *)
Definition split (p : string) : string * string :=
  let head := upto_last_sep p in
  let tail := basename p in
  (if all_sep head then head else rstrip_sep head, tail).

Fixpoint ends_with_sep (s : string) : bool :=
  match s with
  | EmptyString => false
  | String c EmptyString => Ascii.eqb c sep
  | String _ r => ends_with_sep r
  end.

(** [os.path.join(a, b)] *)
Definition join (a b : string) : string :=
  if Str.startswith "/" b then b
  else if (a =? "") || ends_with_sep a then a ++ b
  else a ++ "/" ++ b.

(** [join] applied to the unpacked [os.path.split(p)[:-1]]: [split] gives a
    pair, the slice keeps its first component, and [join] of one argument is
    that argument. *)
Definition parent (p : string) : string := fst (split p).

(** [p.split('/')] *)
Fixpoint components (s : string) : list string :=
  match s with
  | EmptyString => [EmptyString]
  | String c r =>
      if Ascii.eqb c sep then EmptyString :: components r
      else
        match components r with
        | h :: t => String c h :: t
        | [] => [String c EmptyString]
        end
  end.

(** ['/'.join(parts)] *)
Fixpoint unsplit (parts : list string) : string :=
  match parts with
  | [] => EmptyString
  | [x] => x
  | x :: r => (x ++ "/" ++ unsplit r)%string
  end.

(** The root pathlib keeps of a POSIX path: [//] for exactly two leading
    separators, [/] for one or for three and more, nothing otherwise. *)
Definition root_of_path (p : string) : string :=
  match p with
  | String a (String b (String c _)) =>
      if Ascii.eqb a sep
      then if Ascii.eqb b sep && negb (Ascii.eqb c sep) then "//" else "/"
      else ""
  | String a (String b EmptyString) =>
      if Ascii.eqb a sep then if Ascii.eqb b sep then "//" else "/" else ""
  | String a EmptyString => if Ascii.eqb a sep then "/" else ""
  | EmptyString => ""
  end.

(** [str(PurePosixPath(p))]: the root, then the components that are neither
    empty nor ['.'], joined by single separators; ['.'] when nothing is
    left. *)
Definition normal (p : string) : string :=
  let tail :=
    filter (fun x => negb (x =? "") && negb (x =? ".")) (components p) in
  let s := (root_of_path p ++ unsplit tail)%string in
  if s =? "" then "." else s.

(** [str(Path(a) / b)] *)
Definition div (a b : string) : string := normal (join a b).

End Path.

(** ** Calendar days, as [numpy.datetime64] counts them *)

Module Date.

Local Open Scope Z_scope.

Definition ns_per_day : Z := 86400000000000.

(** [np.datetime64(t, 'D')] of a nanosecond timestamp: the day it falls in *)
Definition day_of_ns (t : Z) : Z := t / ns_per_day.

(** a [datetime64[D]] value seen as [datetime64[ns]] *)
Definition ns_of_day (d : Z) : Z := d * ns_per_day.

(** Days since 1970-01-01 of a proleptic Gregorian date. *)
Definition days_from_civil (y m d : Z) : Z :=
  let y' := if m <=? 2 then y - 1 else y in
  let era := y' / 400 in
  let yoe := y' - era * 400 in
  let mp := if 2 <? m then m - 3 else m + 9 in
  let doy := (153 * mp + 2) / 5 + d - 1 in
  let doe := yoe * 365 + yoe / 4 - yoe / 100 + doy in
  era * 146097 + doe - 719468.

(** The proleptic Gregorian date of a day number. *)
Definition civil_from_days (z0 : Z) : Z * Z * Z :=
  let z := z0 + 719468 in
  let era := z / 146097 in
  let doe := z - era * 146097 in
  let yoe := (doe - doe / 1460 + doe / 36524 - doe / 146096) / 365 in
  let doy := doe - (365 * yoe + yoe / 4 - yoe / 100) in
  let mp := (5 * doy + 2) / 153 in
  let d := doy - (153 * mp + 2) / 5 + 1 in
  let m := if mp <? 10 then mp + 3 else mp - 9 in
  let y := yoe + era * 400 in
  (if m <=? 2 then y + 1 else y, m, d).

Definition digits2 (n : Z) : string :=
  String (Str.digit_char (n / 10 mod 10))
    (String (Str.digit_char (n mod 10)) EmptyString).

Definition digits4 (n : Z) : string :=
  String (Str.digit_char (n / 1000 mod 10))
    (String (Str.digit_char (n / 100 mod 10)) (digits2 n)).

(** [str(np.datetime64(d, 'D'))], for the years 0000 to 9999 that print as
    ten characters *)
Definition iso_date (d : Z) : string :=
  let '(y, m, dd) := civil_from_days d in
  (digits4 y ++ "-" ++ digits2 m ++ "-" ++ digits2 dd)%string.

Definition num2 (a b : ascii) : option Z :=
  if Str.is_digit a && Str.is_digit b
  then Some (10 * Str.digit_val a + Str.digit_val b) else None.

Definition num4 (a b c d : ascii) : option Z :=
  match num2 a b, num2 c d with
  | Some h, Some l => Some (100 * h + l)
  | _, _ => None
  end.

Definition dash (c : ascii) : bool := Ascii.eqb c "-"%char.

Definition is_leap (y : Z) : bool :=
  (y mod 4 =? 0) && (negb (y mod 100 =? 0) || (y mod 400 =? 0)).

Definition days_in_month (y m : Z) : Z :=
  if m =? 2 then (if is_leap y then 29 else 28)
  else if (m =? 4) || (m =? 6) || (m =? 9) || (m =? 11) then 30
  else 31.

(** [np.datetime64(s, 'D')] for the three forms the module documents:
    ['YYYY'], ['YYYY-MM'] and ['YYYY-MM-DD'] (a missing month or day is the
    first); anything else, a day the month does not have included, is the
    [ValueError] of numpy, here [None]. *)
Definition parse_day (s : string) : option Z :=
  match s with
  | String y1 (String y2 (String y3 (String y4 r))) =>
      match num4 y1 y2 y3 y4 with
      | None => None
      | Some y =>
          match r with
          | EmptyString => Some (days_from_civil y 1 1)
          | String c1 (String m1 (String m2 r')) =>
              match num2 m1 m2 with
              | None => None
              | Some m =>
                  if negb (dash c1) || (m <? 1) || (12 <? m) then None
                  else
                    match r' with
                    | EmptyString => Some (days_from_civil y m 1)
                    | String c2 (String d1 (String d2 EmptyString)) =>
                        match num2 d1 d2 with
                        | None => None
                        | Some d =>
                            if negb (dash c2) || (d <? 1)
                               || (days_in_month y m <? d) then None
                            else Some (days_from_civil y m d)
                        end
                    | _ => None
                    end
              end
          | _ => None
          end
      end
  | _ => None
  end.

End Date.

(** ** The world the module acts on *)

(** One link of a catalogue entry: [{'title': ..., 'href': ...}]. *)
Record Link := mkLink { title : string; href : string }.

(** One granule of the catalogue's [feed.entry] list; the two timestamps are
    the [datetime64[ns]] values of the strings the service sends. *)
Record Entry := mkEntry { time_start : Z; time_end : Z; links : list Link }.

(** The JSON body of a catalogue answer: it may carry a ['feed'] key (with its
    entry list), an ['errors'] key, both, or neither. *)
Record Response := mkResponse
  { feed : option (list Entry); errors : option (list string) }.

(** The search criteria sent with a request. *)
Record Params := mkParams { ShortName_of : string; temporal : string }.

(** The object store behind the [s3] handle: the objects that can be read,
    with their sizes in bytes. *)
Record S3FileSystem := mkS3 { objects : list (string * Z) }.

(** Calls made on the handle. *)
Inductive S3Call :=
| GetFile (url target : string)
| GetInfo (url : string)
| OpenFile (url : string).

Record World := mkWorld
  { home : string;                 (* expanduser('~') *)
    dirs : list string;            (* directories that exist *)
    files : list string;           (* regular files that exist *)
    free_bytes : Z;                (* shutil.disk_usage(d).free *)
    store : S3FileSystem;          (* what init_S3FileSystem connects to *)
    pending : list Response;       (* answers the catalogue will give, in order *)
    requests : list Params;        (* requests sent so far, oldest first *)
    s3_calls : list S3Call }.      (* calls made on the handle, oldest first *)

Definition with_dirs (d : list string) (w : World) : World :=
  mkWorld (home w) d (files w) (free_bytes w) (store w) (pending w)
          (requests w) (s3_calls w).

Definition with_files (f : list string) (w : World) : World :=
  mkWorld (home w) (dirs w) f (free_bytes w) (store w) (pending w)
          (requests w) (s3_calls w).

Definition with_catalogue (p : list Response) (r : list Params) (w : World)
  : World :=
  mkWorld (home w) (dirs w) (files w) (free_bytes w) (store w) p r (s3_calls w).

Definition with_s3_calls (c : list S3Call) (w : World) : World :=
  mkWorld (home w) (dirs w) (files w) (free_bytes w) (store w) (pending w)
          (requests w) c.

Definition isdir (w : World) (p : string) : bool := Str.mem p (dirs w).
Definition isfile (w : World) (p : string) : bool := Str.mem p (files w).

(** ** Exceptions and the monad of effects *)

Inductive exn :=
| NameError (name : string)
| OutputDirMissing (dir : string)   (* Exception("Output directory doesn't exist! ...") *)
| CatalogError (msg : string)       (* Exception(response['errors'][0]) *)
| KeyError (key : string)
| IndexError
| ValueError
| TypeError
| ConnectionError
| FileNotFoundError (path : string)
| FileExistsError (path : string)
| NotADirectoryError (path : string).

Inductive outcome (A : Type) : Type :=
| Return (a : A) (w : World)
| Raise (e : exn) (w : World)
| OutOfFuel.

Arguments Return {A} a w.
Arguments Raise {A} e w.
Arguments OutOfFuel {A}.

Definition M (A : Type) : Type := World -> outcome A.

Definition ret {A} (a : A) : M A := fun w => Return a w.

Definition raise {A} (e : exn) : M A := fun w => Raise e w.

Definition bind {A B} (c : M A) (k : A -> M B) : M B :=
  fun w =>
    match c w with
    | Return a w1 => k a w1
    | Raise e w1 => Raise e w1
    | OutOfFuel => OutOfFuel
    end.

Notation "x <- c ;; k" := (bind c (fun x => k))
  (at level 61, c at next level, right associativity).
Notation "' pat <- c ;; k" := (bind c (fun x => match x with pat => k end))
  (at level 61, pat pattern, c at next level, right associativity).

(** [try: c  except: h], the bare [except] that catches everything. *)
Definition try_except {A} (c : M A) (h : M A) : M A :=
  fun w =>
    match c w with
    | Return a w1 => Return a w1
    | Raise _ w1 => h w1
    | OutOfFuel => OutOfFuel
    end.

(** [[f(x) for x in l]], and the [for] loops that append [f(x)] to a list:
    left to right, stopping at the first exception. *)
Fixpoint for_each {A B} (f : A -> M B) (l : list A) : M (list B) :=
  match l with
  | [] => ret []
  | x :: r => y <- f x ;; ys <- for_each f r ;; ret (y :: ys)
  end.

(** ** Catalogue Query Engine *)

Definition page_size : nat := 2000.

(** [get_results]: one GET against the granule search; the next pending
    answer is consumed.  A catalogue with nothing left to say is a failed
    connection. *)
Definition get_results (params : Params) : M Response :=
  fun w =>
    match pending w with
    | [] => Raise ConnectionError (with_catalogue [] (requests w ++ [params]) w)
    | r :: rest => Return r (with_catalogue rest (requests w ++ [params]) w)
    end.

Definition s3_title : string := "direct download access via S3".

(** The inner [for curr_link ...: if ... in curr_link['title']: append; break]:
    the first link whose title mentions direct S3 access, if there is one. *)
Definition s3_link (e : Entry) : list string :=
  match find (fun l => Str.contains s3_title (title l)) (links e) with
  | Some l => [href l]
  | None => []
  end.

(** [str(np.datetime64(last['time_end'],'D') + np.timedelta64(1,'D'))
     + params['temporal'][10:]] *)
Definition next_temporal (last_entry : Entry) (temporal : string) : string :=
  Date.iso_date (Date.day_of_ns (time_end last_entry) + 1) ++ Str.drop 10 temporal.

(** The [while completed_query == False] loop of [get_granules].  Its state is
    [params['temporal']], the [time_start] array and [s3_files_list]. *)
Fixpoint granule_pages (fuel : nat) (ShortName temporal : string)
    (time_starts : list Z) (s3_files_list : list string)
  : M (list Z * list string) :=
  match fuel with
  | O => fun _ => OutOfFuel
  | S fuel' =>
      response <- get_results (mkParams ShortName temporal) ;;
      match feed response with
      | Some entries =>
          let time_starts' := time_starts ++ map time_start entries in
          let s3_files_list' := s3_files_list ++ flat_map s3_link entries in
          if (length entries <? page_size)%nat
          then ret (time_starts', s3_files_list')
          else
            match rev entries with
            | last_entry :: _ =>
                granule_pages fuel' ShortName (next_temporal last_entry temporal)
                              time_starts' s3_files_list'
            | [] => raise IndexError
            end
      | None =>
          match errors response with
          | Some (msg :: _) => raise (CatalogError msg)
          | Some [] => raise IndexError
          | None => raise (KeyError "feed")
          end
      end
  end.

(** [np.argmin]: the first index of the least element. *)
Fixpoint argmin_from (l : list Z) (i best_i : nat) (best : Z) : nat :=
  match l with
  | [] => best_i
  | x :: r =>
      if (x <? best)%Z then argmin_from r (S i) i x
      else argmin_from r (S i) best_i best
  end.

Definition argmin (l : list Z) : option nat :=
  match l with
  | [] => None
  | x :: r => Some (argmin_from r 1 0 x)
  end.

(** [l[i:i+1]] *)
Definition slice1 {A} (i : nat) (l : list A) : list A := firstn 1 (skipn i l).

Definition is_aggregate (ShortName : string) : bool :=
  Str.contains "MONTHLY" ShortName || Str.contains "DAILY" ShortName.

(** [get_granules(params, ShortName, SingleDay_flag)].  [StartDate] is the
    variable of the enclosing [ecco_podaac_s3_query] that the closure reads. *)
Definition get_granules (fuel : nat) (StartDate : string) (params : Params)
    (ShortName : string) (SingleDay_flag : bool) : M (list string) :=
  ' (time_starts, s3_files_list) <-
      granule_pages fuel (ShortName_of params) (temporal params) [] [] ;;
  if is_aggregate ShortName then
    if SingleDay_flag && (1 <? length s3_files_list)%nat then
      match Date.parse_day StartDate with
      | None => raise ValueError
      | Some d =>
          match argmin (map (fun t => Z.abs (t - Date.ns_of_day d)) time_starts) with
          | None => raise ValueError
          | Some day_index => ret (slice1 day_index s3_files_list)
          end
      end
    else ret s3_files_list
  else ret s3_files_list.

(** *** The monthly post-filter of snapshot datasets *)

(** Does [_[0-9]{4}-[0-9]{2}-[0-9]{2}] match at the beginning of [s]?  The
    answer is the matched text. *)
Definition date_match_here (s : string) : option string :=
  match s with
  | String u (String y1 (String y2 (String y3 (String y4 (String h1
      (String m1 (String m2 (String h2 (String d1 (String d2 _)))))))))) =>
      if Ascii.eqb u "_"%char
         && Str.is_digit y1 && Str.is_digit y2 && Str.is_digit y3
         && Str.is_digit y4 && Date.dash h1 && Str.is_digit m1
         && Str.is_digit m2 && Date.dash h2 && Str.is_digit d1
         && Str.is_digit d2
      then Some (String u (String y1 (String y2 (String y3 (String y4
                  (String h1 (String m1 (String m2 (String h2 (String d1
                  (String d2 EmptyString)))))))))))
      else None
  | _ => None
  end.

(** [re.findall("_[0-9]{4}-[0-9]{2}-[0-9]{2}", s)[0]]: the leftmost match;
    [None] is the [IndexError] of indexing an empty list of matches. *)
Fixpoint first_date_match (s : string) : option string :=
  match date_match_here s with
  | Some m => Some m
  | None =>
      match s with
      | EmptyString => None
      | String _ r => first_date_match r
      end
  end.

(** [snapshot_date = re.findall(...)[0][1:]] *)
Definition snapshot_date (s3_file : string) : option string :=
  option_map (Str.drop 1) (first_date_match s3_file).

(** [snapshot_date[8:] != '01'] *)
Definition not_first_of_month (date : string) : bool :=
  negb (Str.drop 8 date =? "01").

(** [list.remove(x)]: drops the first element equal to [x]; [None] is the
    [ValueError] raised when there is none. *)
Fixpoint list_remove (x : string) (l : list string) : option (list string) :=
  match l with
  | [] => None
  | y :: r =>
      if x =? y then Some r
      else option_map (cons y) (list_remove x r)
  end.

(** The loop [for s3_file in s3_files_list: ...] that removes from the copy
    the files not dated on the first of a month. *)
Fixpoint prune_snapshots (s3_files_list s3_files_list_copy : list string)
  : M (list string) :=
  match s3_files_list with
  | [] => ret s3_files_list_copy
  | s3_file :: rest =>
      match snapshot_date s3_file with
      | None => raise IndexError
      | Some date =>
          if not_first_of_month date then
            match list_remove s3_file s3_files_list_copy with
            | None => raise ValueError
            | Some copy' => prune_snapshots rest copy'
            end
          else prune_snapshots rest s3_files_list_copy
      end
  end.

(** [setup_earthdata_login_auth()] on a machine whose netrc file holds the
    login of the host: the file is read and a process-wide opener is
    installed, and neither is part of [World].  Without that login the helper
    prompts for one and appends it to the netrc file; that case is not
    modelled, and nothing below is stated about the local files across a
    call of the helper. *)
Definition setup_earthdata_login_auth : M unit := ret tt.

(** ** Object store and file system operations *)

(** [init_S3FileSystem()] *)
Definition init_S3FileSystem : M S3FileSystem := fun w => Return (store w) w.

Definition lookup_object (s3 : S3FileSystem) (url : string) : option Z :=
  option_map snd (find (fun o => fst o =? url) (objects s3)).

Definition log_call (c : S3Call) : M unit :=
  fun w => Return tt (with_s3_calls (s3_calls w ++ [c]) w).

(** [s3.get_file(url, target)]: the object is copied to [target], which is a
    regular file afterwards; an object that cannot be read is an exception. *)
Definition s3_get_file (s3 : S3FileSystem) (url target : string) : M unit :=
  _ <- log_call (GetFile url target) ;;
  match lookup_object s3 url with
  | None => raise (FileNotFoundError url)
  | Some _ => fun w => Return tt (with_files (target :: files w) w)
  end.

(** [s3.info(url)['size']] *)
Definition s3_info_size (s3 : S3FileSystem) (url : string) : M Z :=
  _ <- log_call (GetInfo url) ;;
  match lookup_object s3 url with
  | None => raise (FileNotFoundError url)
  | Some size => ret size
  end.

(** What a caller is handed for one granule: a path on the local disk or a
    file opened on the object store. *)
Inductive item :=
| LocalPath (path : string)
| RemoteFile (url : string).

(** [s3.open(url)] *)
Definition s3_open (s3 : S3FileSystem) (url : string) : M item :=
  _ <- log_call (OpenFile url) ;;
  match lookup_object s3 url with
  | None => raise (FileNotFoundError url)
  | Some _ => ret (RemoteFile url)
  end.

(** [Path.parents]: the chain of [os.path.split] heads above [p]. *)
Fixpoint ancestors (fuel : nat) (p : string) : list string :=
  match fuel with
  | O => []
  | S fuel' =>
      let h := Path.parent p in
      if (h =? p) || (h =? "") then [] else h :: ancestors fuel' h
  end.

(** [Path(p).mkdir(exist_ok=True, parents=True)]: a regular file at [p] or
    at one of its ancestors is an error; otherwise [p] and its ancestors are
    directories afterwards. *)
Definition mkdir_p (p : string) : M unit :=
  fun w =>
    if isfile w p then Raise (FileExistsError p) w
    else if existsb (isfile w) (ancestors (String.length p) p)
    then Raise (NotADirectoryError p) w
    else Return tt (with_dirs (p :: ancestors (String.length p) p ++ dirs w) w).

(** What the system finds at [p], for a path that may be spelled otherwise
    than the directory was when it was created: redundant separators and
    ['.'] components do not count, and the empty string names nothing. *)
Definition exists_at (w : World) (p : string) : bool :=
  negb (p =? "") && (isdir w (Path.normal p) || isfile w (Path.normal p)).

(** [shutil.disk_usage(p).free] *)
Definition disk_usage_free (p : string) : M Z :=
  fun w =>
    if exists_at w p then Return (free_bytes w) w
    else Raise (FileNotFoundError p) w.

(** [join(expanduser('~'),'Downloads','ECCO_V4r4_PODAAC')] when
    [download_root_dir] is [None] *)
Definition root_dir (download_root_dir : option string) : M string :=
  fun w =>
    match download_root_dir with
    | Some d => Return d w
    | None =>
        Return (Path.join (Path.join (home w) "Downloads") "ECCO_V4r4_PODAAC") w
    end.

(** ** Retrieval Orchestrator *)

(** [download_file(s3, url, output_dir, force)] *)
Definition download_file (s3 : S3FileSystem) (url output_dir : string)
    (force : bool) : M string :=
  fun w =>
    if negb (isdir w output_dir) then Raise (OutputDirMissing output_dir) w
    else
      let target_file := Path.join output_dir (Path.basename url) in
      if isfile w target_file && negb force then Return target_file w
      else (_ <- s3_get_file s3 url target_file ;; ret target_file) w.

(** The names bound in the module's global scope: its imports and its
    function definitions.  ([from concurrent.futures import ThreadPoolExecutor]
    is a statement of the body of [ecco_podaac_s3_get]: it binds a local name
    of that function and nothing here.) *)
Definition module_globals : list string :=
  [ "date_adjustment"; "np"; "pd"; "requests"; "time"; "os"; "basename";
    "isfile"; "isdir"; "join"; "expanduser"; "Path"; "system"; "netrc";
    "request"; "CookieJar"; "getpass";
    "setup_earthdata_login_auth"; "ecco_podaac_s3_query"; "init_S3FileSystem";
    "download_file"; "download_files_concurrently"; "download_files_s3_wrapper";
    "ecco_podaac_s3_open"; "ecco_podaac_s3_open_fsspec"; "ecco_podaac_s3_get";
    "ecco_podaac_s3_get_diskaware" ].

(** Reading the global [name] in the scope [G]. *)
Definition global (G : list string) (name : string) : M unit :=
  if Str.mem name G then ret tt else raise (NameError name).

(** How a result reaches a public caller: the list, or its only element
    ([if len(x) == 1: x = x[0]]). *)
Inductive retrieval :=
| Many (l : list item)
| One (i : item).

Definition collapse (l : list item) : retrieval :=
  match l with
  | [i] => One i
  | _ => Many l
  end.

(** [retrieved_files[k] = v] on a dict kept in insertion order *)
Fixpoint dict_set (k : string) (v : retrieval) (d : list (string * retrieval))
  : list (string * retrieval) :=
  match d with
  | [] => [(k, v)]
  | (k', v') :: r => if k =? k' then (k, v) :: r else (k', v') :: dict_set k v r
  end.

(** What [ecco_podaac_s3_get_diskaware] returns: the dict, or [-1]. *)
Inductive dispatched :=
| Retrieved (retrieved_files : list (string * retrieval))
| MinusOne.

(** ** float64

    The numbers numpy computes with are IEEE binary64.  A finite one is kept
    as the rational it denotes; each operation gives the exact result rounded
    to the nearest number with a significand of 53 bits, ties to the even
    significand.  The exponent is not bounded: byte counts and their
    quotients are far from the overflow and underflow of the format. *)

Module Float64.

Local Open Scope Z_scope.

(** The exponent [e] with [2^e <= n/d < 2^(e+1)], for positive [n] and [d]. *)
Definition exponent (n d : Z) : Z :=
  let e := Z.log2 n - Z.log2 d in
  if 0 <=? e
  then (if d * 2 ^ e <=? n then e else e - 1)
  else (if d <=? n * 2 ^ (- e) then e else e - 1).

(** [n/d] rounded, for positive [n] and [d]: the quotient is scaled so that
    its integer part has 53 bits, and the remainder decides the last bit. *)
Definition round_pos (n d : Z) : Q :=
  let k := exponent n d - 52 in
  let N := if k <? 0 then n * 2 ^ (- k) else n in
  let D := if k <? 0 then d else d * 2 ^ k in
  let m := N / D in
  let r := N mod D in
  let m :=
    if 2 * r <? D then m
    else if D <? 2 * r then m + 1
    else if Z.even m then m else m + 1 in
  if k <? 0 then Qmake m (Z.to_pos (2 ^ (- k))) else inject_Z (m * 2 ^ k).

(** The float64 nearest to [q]. *)
Definition round (q : Q) : Q :=
  match Qnum q with
  | Z0 => 0%Q
  | Zpos n => round_pos (Zpos n) (Zpos (Qden q))
  | Zneg n => Qopp (round_pos (Zpos n) (Zpos (Qden q)))
  end.

(** [float(z)], and the conversion of an integer that meets a float. *)
Definition of_int (z : Z) : Q := round (inject_Z z).

Definition add (a b : Q) : Q := round (a + b)%Q.

(** [a/b] for [b] other than zero. *)
Definition div (a b : Q) : Q := round (a / b)%Q.

(** The literal [0.9]. *)
Definition nine_tenths : Q := round (9 # 10).

(** [res += a[i]] over [l], from [res]. *)
Definition add_all (res : Q) (l : list Q) : Q := fold_left add l res.

(** The eight running sums of a block: [r[j] += a[i + j]] for each full
    group of eight that [l] still holds; what is left of [l] comes back with
    them. *)
Fixpoint add_groups (groups : nat) (r l : list Q) : list Q * list Q :=
  match groups with
  | O => (r, l)
  | S groups =>
      add_groups groups
                 (map (fun p => add (fst p) (snd p)) (combine r (firstn 8 l)))
                 (skipn 8 l)
  end.

(** [np.sum] of a one-dimensional float64 array, which adds pairwise: fewer
    than eight numbers one after the other; up to 128 in eight running sums
    that are then added as a tree, the remainder after them; more than that
    as the sum of the sums of two parts, the first a multiple of eight
    long. *)
Fixpoint pairwise_sum (fuel : nat) (a : list Q) : Q :=
  let n := length a in
  if (n <? 8)%nat then add_all 0%Q a
  else if (n <=? 128)%nat then
    match add_groups (n / 8 - 1) (firstn 8 a) (skipn 8 a) with
    | ([r0; r1; r2; r3; r4; r5; r6; r7], rest) =>
        add_all (add (add (add r0 r1) (add r2 r3))
                     (add (add r4 r5) (add r6 r7))) rest
    | _ => 0%Q
    end
  else
    match fuel with
    | O => 0%Q
    | S fuel =>
        let n2 := (n / 2)%nat in
        let n2 := (n2 - n2 mod 8)%nat in
        add (pairwise_sum fuel (firstn n2 a)) (pairwise_sum fuel (skipn n2 a))
    end.

(** [np.sum(a)]; a list is split less often than it is long. *)
Definition sum (a : list Q) : Q := pairwise_sum (length a) a.

End Float64.

(** [dataset_sizes], the float64 array [np.append] builds from the sizes. *)
Definition size_array (dataset_sizes : list Z) : list Q :=
  map Float64.of_int dataset_sizes.

(** [avail_frac <= max_avail_frac], where [avail_frac] is the float quotient
    [sizes_sum/avail_storage] of the float [sizes_sum] by the integer
    [avail_storage].  Byte counts are not negative; dividing by a zero
    [avail_storage] gives [inf] or [nan], and neither is [<=] a fraction. *)
Definition within_budget (sizes_sum : Q) (avail_storage : Z) (max_avail_frac : Q)
  : bool :=
  if (avail_storage =? 0)%Z then false
  else Qle_bool (Float64.div sizes_sum (Float64.of_int avail_storage))
                max_avail_frac.

(** [np.fmin(np.fmax(max_avail_frac,0),0.9)], on the float the caller's
    number is. *)
Definition clamp_frac (max_avail_frac : Q) : Q :=
  Qmin (Qmax (Float64.round max_avail_frac) 0) Float64.nine_tenths.

Section Retrieval.

(** [ecco_acc_dates.date_adjustment(ShortName, StartDate, EndDate,
    CMR_query=True)], whose module is not part of these sources: it gives
    the adjusted dates and [SingleDay_flag]. *)
Variable date_adjustment : string -> string -> string -> string * string * bool.

(** [executor.map(download_file, repeat(s3), dls, repeat(download_dir),
    repeat(force))] on a pool of [n_workers] threads, whatever it does. *)
Variable executor_map :
  S3FileSystem -> list string -> string -> nat -> bool -> M (list string).

(** [ecco_podaac_s3_query(ShortName, StartDate, EndDate, snapshot_interval)] *)
Definition ecco_podaac_s3_query (fuel : nat) (ShortName StartDate EndDate : string)
    (snapshot_interval : string) : M (list string) :=
  let '(StartDate', EndDate', SingleDay_flag) :=
    date_adjustment ShortName StartDate EndDate in
  _ <- setup_earthdata_login_auth ;;
  let input_search_params := mkParams ShortName (StartDate' ++ "," ++ EndDate') in
  s3_files_list <-
    get_granules fuel StartDate' input_search_params ShortName SingleDay_flag ;;
  if Str.contains "SNAPSHOT" ShortName then
    if snapshot_interval =? "monthly"
    then prune_snapshots s3_files_list s3_files_list
    else ret s3_files_list
  else ret s3_files_list.

(** [download_files_concurrently(s3, dls, download_dir, n_workers, force)],
    run with the global scope [G].  The names are read in the order the body
    evaluates them. *)
Definition download_files_concurrently (G : list string) (s3 : S3FileSystem)
    (dls : list string) (download_dir : string) (n_workers : nat) (force : bool)
  : M (list string) :=
  _ <- global G "time" ;;
  _ <- global G "ThreadPoolExecutor" ;;
  _ <- global G "tqdm" ;;
  _ <- global G "download_file" ;;
  _ <- global G "repeat" ;;
  downloaded_files <- executor_map s3 dls download_dir n_workers force ;;
  _ <- global G "sys" ;;
  ret downloaded_files.

(** The sequential loop of the [except] branch. *)
Definition download_sequentially (s3 : S3FileSystem) (s3_files_list : list string)
    (download_dir : string) (force_redownload : bool) : M (list string) :=
  for_each (fun u => download_file s3 u download_dir force_redownload)
           s3_files_list.

(** [download_files_s3_wrapper(s3, s3_files_list, download_dir, n_workers,
    force_redownload)].  The only [return] statement is the last one of the
    [except] block; when the [try] block completes the function ends without
    one and its value is [None]. *)
Definition download_files_s3_wrapper (G : list string) (s3 : S3FileSystem)
    (s3_files_list : list string) (download_dir : string) (n_workers : nat)
    (force_redownload : bool) : M (option (list string)) :=
  try_except
    (_ <- download_files_concurrently G s3 s3_files_list download_dir n_workers
                                      force_redownload ;;
     ret None)
    (downloaded_files <-
       download_sequentially s3 s3_files_list download_dir force_redownload ;;
     ret (Some downloaded_files)).

(** [ecco_podaac_s3_open(ShortName, StartDate, EndDate, snapshot_interval)]:
    the query is called with three arguments, so its [snapshot_interval] is
    the default ['monthly']. *)
Definition ecco_podaac_s3_open (fuel : nat) (ShortName StartDate EndDate : string)
    (snapshot_interval : string) : M retrieval :=
  s3_files_list <- ecco_podaac_s3_query fuel ShortName StartDate EndDate "monthly" ;;
  s3 <- init_S3FileSystem ;;
  open_files <- for_each (s3_open s3) s3_files_list ;;
  ret (collapse open_files).

(** [ecco_podaac_s3_get(ShortName, StartDate, EndDate, snapshot_interval,
    download_root_dir, n_workers, force_redownload, return_downloaded_files)];
    here too the query gets three arguments.  [len(None)] is a [TypeError]. *)
Definition ecco_podaac_s3_get (fuel : nat) (ShortName StartDate EndDate : string)
    (snapshot_interval : string) (download_root_dir : option string)
    (n_workers : nat) (force_redownload return_downloaded_files : bool)
  : M (option retrieval) :=
  root <- root_dir download_root_dir ;;
  let download_dir := Path.div root ShortName in
  _ <- mkdir_p download_dir ;;
  s3_files_list <- ecco_podaac_s3_query fuel ShortName StartDate EndDate "monthly" ;;
  s3 <- init_S3FileSystem ;;
  downloaded_files <-
    download_files_s3_wrapper module_globals s3 s3_files_list download_dir
                              n_workers force_redownload ;;
  if return_downloaded_files then
    match downloaded_files with
    | None => raise TypeError
    | Some l => ret (Some (collapse (map LocalPath l)))
    end
  else ret None.

(** ** Disk-Aware Dispatcher *)

(** [snapshot_interval] when the caller gave [None]: ['daily'] as soon as one
    name contains ['DAILY'], else ['monthly']. *)
Definition default_interval (ShortNames : list string) : string :=
  if existsb (Str.contains "DAILY") ShortNames then "daily" else "monthly".

(** The inner loop [for s3_file in s3_files_list] that adds up the sizes of
    the files not yet in [download_dir]. *)
Fixpoint dataset_size (s3 : S3FileSystem) (download_dir : string)
    (s3_files_list : list string) (curr_dataset_size : Z) : M Z :=
  match s3_files_list with
  | [] => ret curr_dataset_size
  | s3_file :: rest =>
      fun w =>
        if negb (isfile w (Path.join download_dir (Path.basename s3_file)))
        then (size <- s3_info_size s3 s3_file ;;
              dataset_size s3 download_dir rest (curr_dataset_size + size)%Z) w
        else dataset_size s3 download_dir rest curr_dataset_size w
  end.

(** The loop [for curr_shortname in ShortNames] that queries every dataset,
    creates its directory and measures it; the result is [dataset_sizes] and
    [s3_files_list_all]. *)
Fixpoint survey (fuel : nat) (s3 : S3FileSystem) (ShortNames : list string)
    (StartDate EndDate snapshot_interval download_root_dir : string)
  : M (list Z * list (list string)) :=
  match ShortNames with
  | [] => ret ([], [])
  | curr_shortname :: rest =>
      s3_files_list <-
        ecco_podaac_s3_query fuel curr_shortname StartDate EndDate
                             snapshot_interval ;;
      let download_dir := Path.div download_root_dir curr_shortname in
      _ <- mkdir_p download_dir ;;
      curr_dataset_size <- dataset_size s3 download_dir s3_files_list 0%Z ;;
      ' (dataset_sizes, s3_files_list_all) <-
        survey fuel s3 rest StartDate EndDate snapshot_interval
               download_root_dir ;;
      ret (curr_dataset_size :: dataset_sizes, s3_files_list :: s3_files_list_all)
  end.

(** What the probe of the free space ends with: [avail_storage], or the
    [return -1] of the inner [except]. *)
Inductive probed :=
| Available (avail_storage : Z)
| Undetectable.

(** [query_dir = join of os.path.split(query_dir)[:-1]]; on strings neither
    [split] nor [join] raises. *)
Definition parent_dir (query_dir : string) : M string :=
  ret (Path.parent query_dir).

(** The loop [while query_disk_completed == False]. *)
Fixpoint probe_free_space (fuel : nat) (query_dir : string) : M probed :=
  match fuel with
  | O => fun _ => OutOfFuel
  | S fuel' =>
      fun w =>
        match disk_usage_free query_dir w with
        | Return avail_storage w1 => Return (Available avail_storage) w1
        | Raise _ w1 =>
            match parent_dir query_dir w1 with
            | Return query_dir' w2 => probe_free_space fuel' query_dir' w2
            | Raise _ w2 => Return Undetectable w2
            | OutOfFuel => OutOfFuel
            end
        | OutOfFuel => OutOfFuel
        end
  end.

(** The [for] loop of the download branch. *)
Fixpoint download_all (s3 : S3FileSystem) (download_root_dir : string)
    (n_workers : nat) (force_redownload : bool)
    (todo : list (string * list string))
    (retrieved_files : list (string * retrieval))
  : M (list (string * retrieval)) :=
  match todo with
  | [] => ret retrieved_files
  | (curr_shortname, s3_files_list) :: rest =>
      let download_dir := Path.div download_root_dir curr_shortname in
      downloaded_files <-
        download_files_s3_wrapper module_globals s3 s3_files_list download_dir
                                  n_workers force_redownload ;;
      match downloaded_files with
      | None => raise TypeError
      | Some l =>
          download_all s3 download_root_dir n_workers force_redownload rest
            (dict_set curr_shortname (collapse (map LocalPath l)) retrieved_files)
      end
  end.

(** The [for] loop of the remote-open branch. *)
Fixpoint open_all (s3 : S3FileSystem) (todo : list (string * list string))
    (retrieved_files : list (string * retrieval))
  : M (list (string * retrieval)) :=
  match todo with
  | [] => ret retrieved_files
  | (curr_shortname, s3_files_list) :: rest =>
      open_files <- for_each (s3_open s3) s3_files_list ;;
      open_all s3 rest (dict_set curr_shortname (collapse open_files) retrieved_files)
  end.

(** A sum of byte counts as Python integers have it, without rounding. *)
Definition sum_sizes (dataset_sizes : list Z) : Z := fold_right Z.add 0%Z dataset_sizes.

(** [ecco_podaac_s3_get_diskaware(ShortNames, StartDate, EndDate,
    snapshot_interval, download_root_dir, max_avail_frac, n_workers,
    force_redownload)] *)
Definition ecco_podaac_s3_get_diskaware (fuel : nat) (ShortNames : list string)
    (StartDate EndDate : string) (snapshot_interval : option string)
    (download_root_dir : option string) (max_avail_frac : Q) (n_workers : nat)
    (force_redownload : bool) : M dispatched :=
  let max_avail_frac := clamp_frac max_avail_frac in
  s3 <- init_S3FileSystem ;;
  let snapshot_interval :=
    match snapshot_interval with
    | Some i => i
    | None => default_interval ShortNames
    end in
  download_root_dir <- root_dir download_root_dir ;;
  ' (dataset_sizes, s3_files_list_all) <-
    survey fuel s3 ShortNames StartDate EndDate snapshot_interval
           download_root_dir ;;
  probe <- probe_free_space fuel download_root_dir ;;
  match probe with
  | Undetectable => ret MinusOne
  | Available avail_storage =>
      let sizes_sum := Float64.sum (size_array dataset_sizes) in
      if within_budget sizes_sum avail_storage max_avail_frac then
        retrieved_files <-
          download_all s3 download_root_dir n_workers force_redownload
                       (combine ShortNames s3_files_list_all) [] ;;
        ret (Retrieved retrieved_files)
      else
        retrieved_files <-
          open_all s3 (combine ShortNames s3_files_list_all) [] ;;
        ret (Retrieved retrieved_files)
  end.

End Retrieval.


(** ** Vocabulary of the statements *)

(** The local path a URL is downloaded to. *)
Definition target_file (output_dir url : string) : string :=
  Path.join output_dir (Path.basename url).

(** A catalogue answer that carries a feed and no error. *)
Definition feed_page (entries : list Entry) : Response :=
  mkResponse (Some entries) None.

(** The temporal filter after a full page: the lower bound moves to the day
    after the end of the page's last entry. *)
Definition advance (temporal : string) (page : list Entry) : string :=
  match rev page with
  | last_entry :: _ => next_temporal last_entry temporal
  | [] => temporal
  end.

(** The temporal filters of the requests sent while the catalogue answers
    with the full pages [full_pages] and then something else. *)
Fixpoint temporals (temporal : string) (full_pages : list (list Entry))
  : list string :=
  match full_pages with
  | [] => [temporal]
  | page :: rest => temporal :: temporals (advance temporal page) rest
  end.

(** Is the date embedded in the name of [s3_file] the first of a month? *)
Definition first_of_month (s3_file : string) : bool :=
  match snapshot_date s3_file with
  | Some date => negb (not_first_of_month date)
  | None => false
  end.

(** The items of a result, whichever way it is returned. *)
Definition items (r : retrieval) : list item :=
  match r with
  | Many l => l
  | One i => [i]
  end.

(** A result that is not a list of one element: a single item comes as the
    item itself. *)
Definition collapsed (r : retrieval) : Prop :=
  forall i, items r = [i] -> r = One i.

Definition is_local (i : item) : Prop :=
  match i with LocalPath _ => True | RemoteFile _ => False end.

Definition is_remote (i : item) : Prop :=
  match i with LocalPath _ => False | RemoteFile _ => True end.

(** Every dataset of the dict was downloaded / was opened remotely. *)
Definition all_downloaded (d : list (string * retrieval)) : Prop :=
  Forall (fun kv => Forall is_local (items (snd kv))) d.

Definition all_opened (d : list (string * retrieval)) : Prop :=
  Forall (fun kv => Forall is_remote (items (snd kv))) d.

(** The interval and the root directory the dispatcher works with. *)
Definition interval_of (snapshot_interval : option string)
    (ShortNames : list string) : string :=
  match snapshot_interval with
  | Some i => i
  | None => default_interval ShortNames
  end.

Definition root_of (download_root_dir : option string) (w : World) : string :=
  match download_root_dir with
  | Some d => d
  | None => Path.join (Path.join (home w) "Downloads") "ECCO_V4r4_PODAAC"
  end.

Fixpoint increasingb (l : list Z) : bool :=
  match l with
  | x :: (y :: _) as r => (x <? y)%Z && increasingb r
  | _ => true
  end.

(** ** Concrete scenarios *)

Module Scenario.

(** Stand-ins for [date_adjustment]: the dates as given, with or without the
    single-day flag. *)
Definition dates_as_given (_ StartDate EndDate : string) : string * string * bool :=
  (StartDate, EndDate, false).

Definition single_day (_ StartDate EndDate : string) : string * string * bool :=
  (StartDate, EndDate, true).


(** A pool whose map would succeed by downloading in order. *)
Definition orderly_pool (s3 : S3FileSystem) (dls : list string)
    (download_dir : string) (_ : nat) (force : bool) : M (list string) :=
  download_sequentially s3 dls download_dir force.

Definition s3_link_of (url : string) : Link := mkLink s3_title url.
Definition https_link_of (url : string) : Link :=
  mkLink "Download file over HTTPS" url.

Definition GiB : Z := 2 ^ 30.

Definition bucket : S3FileSystem :=
  mkS3 [ ("s3://podaac/SSH_MONTHLY_1992-01.nc", 20 * GiB)%Z;
         ("s3://podaac/SSH_MONTHLY_1992-02.nc", 20 * GiB)%Z;
         ("s3://podaac/SSH_SNAPSHOT_1992-01-01.nc", 30 * GiB)%Z;
         ("s3://podaac/SSH_SNAPSHOT_1992-01-02.nc", 30 * GiB)%Z;
         ("s3://podaac/SSH_SNAPSHOT_1992-02-01.nc", 30 * GiB)%Z;
         ("s3://podaac/SSH_DAILY_1992-01-01.nc", 95 * GiB)%Z ].

(** A machine with a [/data] directory and nothing downloaded yet. *)
Definition fresh (free : Z) (answers : list Response) : World :=
  mkWorld "/home/user" ["/"; "/data"] [] free bucket answers [] [].

(** The granule of day [8035 + i] (1992-01-01 is day 8035), with an HTTPS
    link and a direct S3 link. *)
Definition daily_entry (i : nat) : Entry :=
  let day := (8035 + Z.of_nat i)%Z in
  mkEntry (Date.ns_of_day day) (Date.ns_of_day (day + 1))
          [ https_link_of ("https://podaac/SSH_DAILY_" ++ Date.iso_date day ++ ".nc");
            s3_link_of ("s3://podaac/SSH_DAILY_" ++ Date.iso_date day ++ ".nc") ].

Definition daily_page (first count : nat) : list Entry :=
  map daily_entry (seq first count).

(** The snapshot of day [8035 + i]. *)
Definition snapshot_entry (i : nat) : Entry :=
  let day := (8035 + Z.of_nat i)%Z in
  mkEntry (Date.ns_of_day day) (Date.ns_of_day day)
          [ https_link_of ("https://podaac/SSH_SNAPSHOT_" ++ Date.iso_date day ++ ".nc");
            s3_link_of ("s3://podaac/SSH_SNAPSHOT_" ++ Date.iso_date day ++ ".nc") ].

(** A query for the snapshots of 1992-01-01 to 1992-01-02. *)
Definition two_snapshots : World :=
  fresh (100 * GiB) [ feed_page [snapshot_entry 0; snapshot_entry 1] ].

(** A query for January 1992 of a monthly dataset: one granule. *)
Definition january : Entry :=
  mkEntry (Date.ns_of_day 8035) (Date.ns_of_day 8066)
          [ https_link_of "https://podaac/SSH_MONTHLY_1992-01.nc";
            s3_link_of "s3://podaac/SSH_MONTHLY_1992-01.nc" ].

Definition february : Entry :=
  mkEntry (Date.ns_of_day 8066) (Date.ns_of_day 8095)
          [ https_link_of "https://podaac/SSH_MONTHLY_1992-02.nc";
            s3_link_of "s3://podaac/SSH_MONTHLY_1992-02.nc" ].

Definition one_month : World := fresh (100 * GiB) [ feed_page [january] ].

(** Two monthly datasets of one 20 GiB granule each, 100 GiB free. *)
Definition forty_GiB : World :=
  fresh (100 * GiB) [ feed_page [january]; feed_page [february] ].

(** Two snapshot datasets of one 30 GiB granule each, 100 GiB free. *)
Definition sixty_GiB : World :=
  fresh (100 * GiB) [ feed_page [snapshot_entry 0]; feed_page [snapshot_entry 31] ].

(** One daily dataset of one 95 GiB granule, 100 GiB free. *)
Definition ninety_five_GiB : World :=
  fresh (100 * GiB) [ feed_page [daily_entry 0] ].

(** A full disk on which the only granule asked for is already present. *)
Definition full_disk : World :=
  mkWorld "/home/user" ["/"; "/data"; "/data/ECCO_L4_SSH_05DEG_MONTHLY_V4R4"]
          ["/data/ECCO_L4_SSH_05DEG_MONTHLY_V4R4/SSH_MONTHLY_1992-01.nc"]
          0 bucket [ feed_page [january] ] [] [].

(** One granule of [2^53 + 1] bytes, a size no float64 denotes, and a disk
    with [2^54] bytes free. *)
Definition odd_bucket : S3FileSystem :=
  mkS3 [ ("s3://podaac/SSH_MONTHLY_1992-01.nc", 2 ^ 53 + 1)%Z ].

Definition odd_size : World :=
  mkWorld "/home/user" ["/"; "/data"] [] (2 ^ 54) odd_bucket
          [ feed_page [january] ] [] [].

(** A regular file where the download root is meant to be. *)
Definition file_as_root : World :=
  mkWorld "/home/user" ["/"; "/data"] ["/data/file.txt"] (100 * GiB) bucket
          [ feed_page [january] ] [] [].

(** The same granule when the catalogue lists no direct S3 link for it. *)
Definition unlinked_entry (i : nat) : Entry :=
  let day := (8035 + Z.of_nat i)%Z in
  mkEntry (Date.ns_of_day day) (Date.ns_of_day (day + 1))
          [ https_link_of ("https://podaac/SSH_DAILY_" ++ Date.iso_date day ++ ".nc") ].

(** A query for the single day 1992-01-02 answered with the granules of
    January 1st (no S3 link), 2nd and 3rd. *)
Definition around_jan_2 : World :=
  fresh 0 [ feed_page [unlinked_entry 0; daily_entry 1; daily_entry 2] ].

(** The catalogue answering with two full pages and a page of 500. *)
Definition three_pages : World :=
  fresh 0 [ feed_page (daily_page 0 2000); feed_page (daily_page 2000 2000);
            feed_page (daily_page 4000 500) ].

End Scenario.

(** ** Opening a dataset through a reference file *)

Module Py.

(** [s.split(c)] for a one-character separator *)
Fixpoint split (c : ascii) (s : string) : list string :=
  match s with
  | EmptyString => [EmptyString]
  | String a r =>
      if Ascii.eqb a c then EmptyString :: split c r
      else
        match split c r with
        | h :: t => String a h :: t
        | [] => [String a EmptyString]
        end
  end.

(** [l[-k]] for [k >= 1]; [None] is the [IndexError] of a list too short *)
Definition from_end {A} (k : nat) (l : list A) : option A :=
  nth_error (rev l) (k - 1).

(** [sep.join(l)] *)
Fixpoint join (sep : string) (l : list string) : string :=
  match l with
  | [] => EmptyString
  | [x] => x
  | x :: r => x ++ sep ++ join sep r
  end.

(** [l[0]] *)
Definition first {A} (l : list A) : M A :=
  match l with
  | x :: _ => ret x
  | [] => raise IndexError
  end.

(** [l[-k]] in the monad *)
Definition index_from_end {A} (k : nat) (l : list A) : M A :=
  match from_end k l with
  | Some x => ret x
  | None => raise IndexError
  end.

End Py.

(** The mapper [fs.get_mapper("")] of a reference file system built on
    [json_file] with the credentials [creds]. *)
Inductive FSMap :=
| ReferenceMap (json_file : string) (creds : S3FileSystem).

Definition is_invariant (ShortName : string) : bool :=
  Str.contains "GEOMETRY" ShortName || Str.contains "MIX_COEFFS" ShortName.

Section Fsspec.

(** [glob.glob(pattern)], which reads a directory this model does not list. *)
Variable glob : string -> list string.

(** The first part of [ecco_podaac_s3_open_fsspec]: where the json file is
    found.  In the branch of the geometry and mixing coefficients a grid type
    with neither ['LLC'] nor ['DEG'] leaves [json_file] unassigned ([None]). *)
Definition find_json_file (ShortName jsons_root_dir : string) : M (option string) :=
  let shortname_split := Py.split "_"%char ShortName in
  ' (gridtype, time_res) <-
      (if Str.contains "GEOMETRY" ShortName then
         gridtype <- Py.index_from_end 2 shortname_split ;;
         ret (gridtype, "GEOMETRY")
       else if Str.contains "MIX_COEFFS" ShortName then
         gridtype <- Py.index_from_end 2 shortname_split ;;
         ret (gridtype, "MIXING_COEFFS")
       else
         gridtype <- Py.index_from_end 3 shortname_split ;;
         time_res <- Py.index_from_end 2 shortname_split ;;
         ret (gridtype, time_res)) ;;
  let json_subdir :=
    Path.join jsons_root_dir (Py.join "_" ["MZZ"; gridtype; time_res]) in
  if is_invariant ShortName then
    if Str.contains "LLC" gridtype then
      json_file <- Py.first (glob (Path.join json_subdir "*native*.json")) ;;
      ret (Some json_file)
    else if Str.contains "DEG" gridtype then
      json_file <- Py.first (glob (Path.join json_subdir "*latlon*.json")) ;;
      ret (Some json_file)
    else ret None
  else ret (Some (Path.join json_subdir (ShortName ++ ".json"))).

(** [ecco_podaac_s3_open_fsspec(ShortName, jsons_root_dir)].  Reading the
    unassigned [json_file] is an [UnboundLocalError], a [NameError]. *)
Definition ecco_podaac_s3_open_fsspec (ShortName jsons_root_dir : string)
  : M FSMap :=
  json_file <- find_json_file ShortName jsons_root_dir ;;
  creds <- init_S3FileSystem ;;
  match json_file with
  | Some f => ret (ReferenceMap f creds)
  | None => raise (NameError "json_file")
  end.

End Fsspec.

(** ** More vocabulary *)

(** The files of [s3_files_list] that are not yet in [download_dir]. *)
Definition missing_files (w : World) (download_dir : string)
    (s3_files_list : list string) : list string :=
  filter (fun f => negb (isfile w (target_file download_dir f))) s3_files_list.

(** The size of an object, 0 for one that cannot be read. *)
Definition size_of (s3 : S3FileSystem) (url : string) : Z :=
  match lookup_object s3 url with
  | Some size => size
  | None => 0%Z
  end.

(** A call that transfers an object. *)
Definition is_transfer (c : S3Call) : Prop :=
  match c with
  | GetFile _ _ => True
  | _ => False
  end.

(** An absolute path with a single leading separator. *)
Definition rooted (p : string) : Prop :=
  exists r, p = String "/"%char r /\ Str.startswith "/" r = false.

(** A string without the character [c]. *)
Fixpoint free_of (c : ascii) (s : string) : bool :=
  match s with
  | EmptyString => true
  | String a r => negb (Ascii.eqb a c) && free_of c r
  end.

(** The distance of an entry's start from the day [d], in nanoseconds. *)
Definition distance (d : Z) (e : Entry) : Z :=
  Z.abs (time_start e - Date.ns_of_day d).

(** A day that prints as ten characters, from 0000-01-01 to 9999-12-31. *)
Definition prints_as_ten (d : Z) : Prop := (-719528 <= d <= 2932896)%Z.

(** Every entry the catalogue may still send ends on a day that has a
    ten-character successor. *)
Definition datable (pending : list Response) : Prop :=
  Forall (fun r =>
            forall entries, feed r = Some entries ->
              Forall (fun e => prints_as_ten (Date.day_of_ns (time_end e) + 1))
                     entries)
         pending.

(** The requests added to the log between two worlds. *)
Definition sent_between (w w1 : World) (new : list Params) : Prop :=
  requests w1 = requests w ++ new.

(** Between [w] and [w1] the handle was used for some calls, none of them a
    [get_file]. *)
Definition no_get_file_between (w w1 : World) : Prop :=
  exists calls,
    s3_calls w1 = s3_calls w ++ calls
    /\ Forall (fun c => ~ is_transfer c) calls.

(** A regular file at [p] or at one of its ancestors. *)
Definition file_in_the_way (w : World) (p : string) : bool :=
  isfile w p || existsb (isfile w) (ancestors (String.length p) p).

(** Between [w] and [w1] only the catalogue was talked to. *)
Definition only_catalogue_between (w w1 : World) : Prop :=
  w1 = with_catalogue (pending w1) (requests w1) w.
(** * Properties *)

(** ** Small facts about the model *)

Lemma mem_head (x : string) (l : list string) : Str.mem x (x :: l) = true.
Proof. unfold Str.mem. simpl. now rewrite String.eqb_refl. Qed.

Lemma bind_Return {A B} (c : M A) (k : A -> M B) w a w1 :
  c w = Return a w1 -> bind c k w = k a w1.
Proof. unfold bind. now intros ->. Qed.

Lemma bind_Raise {A B} (c : M A) (k : A -> M B) w e w1 :
  c w = Raise e w1 -> bind c k w = Raise e w1.
Proof. unfold bind. now intros ->. Qed.

Lemma bind_inv {A B} (c : M A) (k : A -> M B) w b w2 :
  bind c k w = Return b w2 ->
  exists a w1, c w = Return a w1 /\ k a w1 = Return b w2.
Proof.
  unfold bind. destruct (c w) as [a w1 | e w1 |]; try discriminate.
  intros H. now exists a, w1.
Qed.

(** ** download_file *)

Section DownloadFile.

Variable s3 : S3FileSystem.
Variables url output_dir : string.

Lemma download_file_no_dir force w :
  isdir w output_dir = false ->
  download_file s3 url output_dir force w = Raise (OutputDirMissing output_dir) w.
Proof. intros H. unfold download_file. now rewrite H. Qed.


(** What a call that returns leaves behind: the path it gives is the target,
    the target is a file, the directories are untouched, and the handle was
    used for one [get_file] at most. *)
Lemma download_file_returns force w p w1 :
  download_file s3 url output_dir force w = Return p w1 ->
  p = target_file output_dir url
  /\ isdir w1 output_dir = true
  /\ dirs w1 = dirs w
  /\ isfile w1 p = true
  /\ (w1 = w \/ s3_calls w1 = s3_calls w ++ [GetFile url p]).
Proof.
  unfold download_file, target_file.
  destruct (isdir w output_dir) eqn:Hd; simpl; [| discriminate].
  destruct (isfile w _ && negb force) eqn:Hf.
  - intros H; inversion H; subst.
    apply andb_prop in Hf as [Hf _]. repeat split; auto.
  - unfold bind, s3_get_file, log_call, ret, raise. simpl.
    destruct (lookup_object s3 url); [| discriminate].
    intros H; inversion H; subst. simpl.
    repeat split; auto.
    unfold isfile. simpl. apply mem_head.
Qed.

End DownloadFile.

(** ** The sequential loop *)

Lemma download_sequentially_returns s3 download_dir force urls :
  forall w l w1,
    download_sequentially s3 urls download_dir force w = Return l w1 ->
    l = map (target_file download_dir) urls /\ dirs w1 = dirs w.
Proof.
  unfold download_sequentially.
  induction urls as [| u urls IH]; intros w l w1 H; simpl in H.
  - inversion H; subst. now split.
  - apply bind_inv in H as (p & wa & Hp & H).
    apply bind_inv in H as (ps & wb & Hps & H).
    inversion H; subst.
    apply download_file_returns in Hp as (-> & _ & Hd & _).
    apply IH in Hps as (-> & Hd').
    split; [reflexivity | congruence].
Qed.

Lemma download_sequentially_progress s3 download_dir force urls :
  forall w,
    isdir w download_dir = true ->
    Forall (fun u => lookup_object s3 u <> None) urls ->
    exists w1,
      download_sequentially s3 urls download_dir force w
      = Return (map (target_file download_dir) urls) w1.
Proof.
  unfold download_sequentially.
  induction urls as [| u urls IH]; intros w Hd Hall; simpl.
  - now exists w.
  - inversion Hall as [| ? ? Hu Hrest]; subst.
    assert (exists wa, download_file s3 u download_dir force w
                       = Return (target_file download_dir u) wa
                       /\ isdir wa download_dir = true) as (wa & Hp & Hda).
    { unfold download_file, target_file. rewrite Hd. simpl.
      destruct (isfile w _ && negb force).
      - now exists w.
      - unfold bind, s3_get_file, log_call, ret. simpl.
        destruct (lookup_object s3 u); [| congruence].
        eexists. split; [reflexivity | exact Hd]. }
    destruct (IH wa Hda Hrest) as (w1 & Hseq).
    exists w1. rewrite (bind_Return _ _ _ _ _ Hp).
    now rewrite (bind_Return _ _ _ _ _ Hseq).
Qed.

(** ** The concurrent helper and the wrapper *)

Section Wrapper.

Variable executor_map :
  S3FileSystem -> list string -> string -> nat -> bool -> M (list string).

Variable s3 : S3FileSystem.
Variable s3_files_list : list string.
Variable download_dir : string.
Variable n_workers : nat.
Variable force_redownload : bool.

Local Abbreviation concurrently G :=
  (download_files_concurrently executor_map G s3 s3_files_list download_dir
                               n_workers force_redownload).
Local Abbreviation wrapper G :=
  (download_files_s3_wrapper executor_map G s3 s3_files_list download_dir
                             n_workers force_redownload).
Local Abbreviation sequentially :=
  (download_sequentially s3 s3_files_list download_dir force_redownload).

(** In the module's own scope the helper stops at its first unbound name,
    before anything is handed to a pool. *)
Lemma concurrently_raises w :
  concurrently module_globals w = Raise (NameError "ThreadPoolExecutor") w.
Proof. reflexivity. Qed.

(** The [except] branch: whatever the helper raised, and whatever it had done
    by then, the whole batch is downloaded again one file after the other. *)
Lemma wrapper_fallback G w e w1 :
  concurrently G w = Raise e w1 ->
  wrapper G w = (l <- sequentially ;; ret (Some l)) w1.
Proof.
  intros H. unfold download_files_s3_wrapper, try_except.
  now rewrite (bind_Raise _ _ _ _ _ H).
Qed.

(** The [try] branch has no [return]: were the helper ever to succeed, the
    caller would get [None]. *)
Lemma wrapper_after_success G w l w1 :
  concurrently G w = Return l w1 ->
  wrapper G w = Return None w1.
Proof.
  intros H. unfold download_files_s3_wrapper, try_except.
  now rewrite (bind_Return _ _ _ _ _ H).
Qed.

Lemma wrapper_module w :
  wrapper module_globals w = (l <- sequentially ;; ret (Some l)) w.
Proof. apply (wrapper_fallback _ _ _ _ (concurrently_raises w)). Qed.

End Wrapper.



(** C10: in the scope of the module, [ThreadPoolExecutor], [tqdm], [repeat]
    and [sys] are unbound; [download_files_concurrently] therefore raises
    [NameError] at the first of them, in the world it was called in, and
    [download_files_s3_wrapper] is the sequential loop of [download_file] over
    the list: same value, same exception, same final world. *)
Theorem wrapper_is_sequential_loop
    (executor_map : S3FileSystem -> list string -> string -> nat -> bool ->
                    M (list string))
    (s3 : S3FileSystem) (s3_files_list : list string) (download_dir : string)
    (n_workers : nat) (force_redownload : bool) (w : World) :
  Forall (fun name => Str.mem name module_globals = false)
         ["ThreadPoolExecutor"; "tqdm"; "repeat"; "sys"]
  /\ download_files_concurrently executor_map module_globals s3 s3_files_list
       download_dir n_workers force_redownload w
     = Raise (NameError "ThreadPoolExecutor") w
  /\ download_files_s3_wrapper executor_map module_globals s3 s3_files_list
       download_dir n_workers force_redownload w
     = match download_sequentially s3 s3_files_list download_dir
               force_redownload w with
       | Return l w1 => Return (Some l) w1
       | Raise e w1 => Raise e w1
       | OutOfFuel => OutOfFuel
       end.
Proof.
  split; [| split].
  - repeat constructor.
  - reflexivity.
  - rewrite wrapper_module. unfold bind, ret.
    now destruct (download_sequentially _ _ _ _ w).
Qed.

(** The [except] branch of [download_files_s3_wrapper].  Whatever the
    concurrent helper raises, in whatever scope, the wrapper goes on with the
    sequential loop over the entire list; as the module stands every call
    that returns gives the list of the targets of the URLs in their order;
    and it does return when the directory exists and every URL can be
    read. *)
Lemma sequential_fallback_gives_ordered_paths
    (executor_map : S3FileSystem -> list string -> string -> nat -> bool ->
                    M (list string))
    (s3 : S3FileSystem) (s3_files_list : list string) (download_dir : string)
    (n_workers : nat) (force_redownload : bool) (w : World) :
  (forall G e w1,
     download_files_concurrently executor_map G s3 s3_files_list download_dir
       n_workers force_redownload w = Raise e w1 ->
     download_files_s3_wrapper executor_map G s3 s3_files_list download_dir
       n_workers force_redownload w
     = match download_sequentially s3 s3_files_list download_dir
               force_redownload w1 with
       | Return l w2 => Return (Some l) w2
       | Raise e' w2 => Raise e' w2
       | OutOfFuel => OutOfFuel
       end)
  /\ (forall v w1,
        download_files_s3_wrapper executor_map module_globals s3 s3_files_list
          download_dir n_workers force_redownload w = Return v w1 ->
        v = Some (map (target_file download_dir) s3_files_list))
  /\ (isdir w download_dir = true ->
      Forall (fun u => lookup_object s3 u <> None) s3_files_list ->
      exists w1,
        download_files_s3_wrapper executor_map module_globals s3 s3_files_list
          download_dir n_workers force_redownload w
        = Return (Some (map (target_file download_dir) s3_files_list)) w1).
Proof.
  split; [| split].
  - intros G e w1 H. rewrite (wrapper_fallback _ _ _ _ _ _ _ _ _ _ H).
    unfold bind, ret. now destruct (download_sequentially _ _ _ _ w1).
  - intros v w1. rewrite wrapper_module. intros H.
    apply bind_inv in H as (l & wa & Hl & H). inversion H; subst.
    now apply download_sequentially_returns in Hl as (-> & _).
  - intros Hd Hall.
    destruct (download_sequentially_progress s3 download_dir force_redownload
                s3_files_list w Hd Hall) as (w1 & H).
    exists w1. rewrite wrapper_module. now rewrite (bind_Return _ _ _ _ _ H).
Qed.

Example sequential_fallback_on_two_files :
  exists w1,
    download_files_s3_wrapper Scenario.orderly_pool module_globals Scenario.bucket
      ["s3://podaac/SSH_MONTHLY_1992-02.nc"; "s3://podaac/SSH_MONTHLY_1992-01.nc"]
      "/data" 6 false (Scenario.fresh 0 [])
    = Return (Some ["/data/SSH_MONTHLY_1992-02.nc"; "/data/SSH_MONTHLY_1992-01.nc"])
             w1.
Proof.
  destruct (sequential_fallback_gives_ordered_paths Scenario.orderly_pool Scenario.bucket
              ["s3://podaac/SSH_MONTHLY_1992-02.nc";
               "s3://podaac/SSH_MONTHLY_1992-01.nc"]
              "/data" 6 false (Scenario.fresh 0 [])) as (_ & _ & H).
  apply H.
  - reflexivity.
  - repeat constructor; discriminate.
Qed.


(** ** The path and date helpers on examples *)

Example basename_url :
  Path.basename "s3://bucket/dir/file_1992-01-01.nc" = "file_1992-01-01.nc".
Proof. reflexivity. Qed.

Example split_examples :
  Path.split "/a/b" = ("/a", "b") /\ Path.split "/a/b/" = ("/a/b", "")
  /\ Path.split "/a" = ("/", "a") /\ Path.split "/" = ("/", "")
  /\ Path.split "a" = ("", "a") /\ Path.split "" = ("", "")
  /\ Path.split "//a" = ("//", "a") /\ Path.split "a//b" = ("a", "b").
Proof. repeat split; reflexivity. Qed.

Example join_examples :
  Path.join "/data" "x.nc" = "/data/x.nc" /\ Path.join "/data/" "x.nc" = "/data/x.nc"
  /\ Path.join "" "x.nc" = "x.nc" /\ Path.join "/data" "/x" = "/x".
Proof. repeat split; reflexivity. Qed.

Example div_examples :
  Path.div "/data" "SSH" = "/data/SSH" /\ Path.div "/data/" "SSH" = "/data/SSH"
  /\ Path.div "./data" "SSH" = "data/SSH" /\ Path.div "." "SSH" = "SSH"
  /\ Path.div "/data//x/." "SSH" = "/data/x/SSH" /\ Path.div "//data" "SSH" = "//data/SSH"
  /\ Path.div "/data" "/SSH" = "/SSH" /\ Path.div "" "" = ".".
Proof. repeat split; reflexivity. Qed.

Example iso_date_examples :
  Date.iso_date 0 = "1970-01-01" /\ Date.iso_date 8035 = "1992-01-01"
  /\ Date.iso_date 11016 = "2000-02-29" /\ Date.iso_date (-1) = "1969-12-31".
Proof. repeat split; reflexivity. Qed.

Example parse_day_examples :
  Date.parse_day "1992-01-01" = Some 8035%Z /\ Date.parse_day "1992" = Some 8035%Z
  /\ Date.parse_day "2000-03" = Some 11017%Z /\ Date.parse_day "1992-1-1" = None
  /\ Date.parse_day "1992-02-29" = Some 8094%Z /\ Date.parse_day "1992-02-30" = None
  /\ Date.parse_day "1993-02-29" = None /\ Date.parse_day "1992-04-31" = None.
Proof. repeat split; reflexivity. Qed.

(** ** float64 on examples *)

Example float64_examples :
  Float64.of_int (2 ^ 53 + 1) == inject_Z (2 ^ 53)
  /\ Float64.of_int (2 ^ 53 + 3) == inject_Z (2 ^ 53 + 4)
  /\ Float64.nine_tenths == 8106479329266893 # 9007199254740992
  /\ 9 # 10 < Float64.nine_tenths
  /\ Float64.div (Float64.of_int 4500000000000001)
                 (Float64.of_int 5000000000000001)
     == Float64.nine_tenths
  /\ Float64.sum (size_array [1; 2 ^ 53; 1]%Z) == inject_Z (2 ^ 53).
Proof. repeat split; vm_compute; reflexivity. Qed.

(** ** The pagination loop *)

Lemma increasingb_Sorted (l : list Z) :
  increasingb l = true -> Sorted Z.lt l.
Proof.
  induction l as [| x [| y r] IH]; intros H.
  - constructor.
  - repeat constructor.
  - simpl in H. apply andb_prop in H as [Hxy Hr].
    constructor; [now apply IH | constructor; now apply Z.ltb_lt].
Qed.

Lemma increasing_NoDup (l : list Z) : Sorted Z.lt l -> NoDup l.
Proof.
  intros H. apply Sorted_StronglySorted in H; [| intros a b c; apply Z.lt_trans].
  induction H as [| x l Hs IH Hall]; constructor; auto.
  intros Hin. rewrite Forall_forall in Hall. specialize (Hall _ Hin). lia.
Qed.

Lemma s3_link_length (e : Entry) : (length (s3_link e) <= 1)%nat.
Proof. unfold s3_link. destruct (find _ _); simpl; lia. Qed.

Lemma linked_count (l : list Entry) :
  Forall (fun e => s3_link e <> []) l ->
  length (flat_map s3_link l) = length l.
Proof.
  induction 1 as [| e l He _ IH]; simpl; [reflexivity |].
  rewrite length_app, IH.
  pose proof (s3_link_length e). destruct (s3_link e); simpl in *; [congruence | lia].
Qed.

Lemma concat_full_length (pages : list (list Entry)) :
  Forall (fun p => length p = page_size) pages ->
  length (concat pages) = (length pages * page_size)%nat.
Proof.
  induction 1 as [| p pages Hp _ IH]; simpl; [reflexivity |].
  now rewrite length_app, IH, Hp.
Qed.

Lemma advance_last (temporal : string) (page : list Entry) (e : Entry) :
  advance temporal (page ++ [e])
  = (Date.iso_date (Date.day_of_ns (time_end e) + 1) ++ Str.drop 10 temporal)%string.
Proof. unfold advance. now rewrite rev_app_distr. Qed.

(** One turn of the loop on a page that is not full: the loop ends. *)
Lemma granule_pages_partial fuel ShortName t ts acc w page rest :
  pending w = feed_page page :: rest ->
  (length page < page_size)%nat ->
  granule_pages (S fuel) ShortName t ts acc w
  = Return (ts ++ map time_start page, acc ++ flat_map s3_link page)
           (with_catalogue rest (requests w ++ [mkParams ShortName t]) w).
Proof.
  intros Hp Hlen. cbn [granule_pages]. unfold bind, get_results.
  rewrite Hp. cbn [feed feed_page].
  apply Nat.ltb_lt in Hlen. now rewrite Hlen.
Qed.

(** One turn of the loop on a full page: another request follows, with the
    lower bound advanced. *)
Lemma granule_pages_full fuel ShortName t ts acc w page rest :
  pending w = feed_page page :: rest ->
  length page = page_size ->
  granule_pages (S fuel) ShortName t ts acc w
  = granule_pages fuel ShortName (advance t page)
      (ts ++ map time_start page) (acc ++ flat_map s3_link page)
      (with_catalogue rest (requests w ++ [mkParams ShortName t]) w).
Proof.
  intros Hp Hlen. cbn [granule_pages]. unfold bind, get_results.
  rewrite Hp. cbn [feed feed_page].
  rewrite Hlen, Nat.ltb_irrefl. unfold advance.
  destruct (rev page) as [| e r] eqn:Hr; [| reflexivity].
  exfalso. apply (f_equal (@length Entry)) in Hr.
  rewrite length_rev, Hlen in Hr. discriminate Hr.
Qed.

Lemma granule_pages_run (full_pages : list (list Entry)) :
  forall fuel ShortName t ts acc w last_page rest,
    pending w = map feed_page full_pages ++ feed_page last_page :: rest ->
    Forall (fun p => length p = page_size) full_pages ->
    (length last_page < page_size)%nat ->
    (length full_pages < fuel)%nat ->
    granule_pages fuel ShortName t ts acc w
    = Return (ts ++ map time_start (concat full_pages ++ last_page),
              acc ++ flat_map s3_link (concat full_pages ++ last_page))
             (with_catalogue rest
                (requests w ++ map (mkParams ShortName) (temporals t full_pages)) w).
Proof.
  induction full_pages as [| page pages IH];
    intros fuel ShortName t ts acc w last_page rest Hp Hfull Hlast Hfuel.
  - destruct fuel as [| fuel]; [inversion Hfuel |].
    now apply granule_pages_partial.
  - destruct fuel as [| fuel]; [inversion Hfuel |].
    inversion Hfull as [| ? ? Hpage Hpages]; subst.
    rewrite (granule_pages_full _ _ _ _ _ _ _ _ Hp Hpage).
    rewrite (IH fuel ShortName _ _ _ _ last_page rest); auto.
    + cbn [concat temporals map with_catalogue requests pending home dirs
             files free_bytes store s3_calls].
      rewrite !map_app, !flat_map_app, <- !app_assoc. reflexivity.
    + simpl in Hfuel. lia.
Qed.

(** C2: when the catalogue answers with full pages of 2000 entries and then
    a page that is not full, the loop (given room for one turn per page) asks
    once per page and stops at the partial page, leaving what the catalogue
    would have said next unread; after each full page the filter of the next
    request starts on the day after the end of that page's last entry; every
    entry of every page is recorded once, in order, with its direct-storage
    link; so that increasing start times are collected without a repetition,
    and if every entry has such a link there are as many references as
    entries (2000 for every full page, and the length of the last one). *)
Theorem pagination_collects_every_page
    (fuel : nat) (ShortName t : string) (full_pages : list (list Entry))
    (last_page : list Entry) (rest : list Response) (w : World) :
  pending w = map feed_page full_pages ++ feed_page last_page :: rest ->
  Forall (fun p => length p = page_size) full_pages ->
  (length last_page < page_size)%nat ->
  (length full_pages < fuel)%nat ->
  let entries := concat full_pages ++ last_page in
  granule_pages fuel ShortName t [] [] w
  = Return (map time_start entries, flat_map s3_link entries)
           (with_catalogue rest
              (requests w ++ map (mkParams ShortName) (temporals t full_pages)) w)
  /\ length (temporals t full_pages) = S (length full_pages)
  /\ (forall t' page e,
        advance t' (page ++ [e])
        = (Date.iso_date (Date.day_of_ns (time_end e) + 1) ++ Str.drop 10 t')%string)
  /\ (Sorted Z.lt (map time_start entries) -> NoDup (map time_start entries))
  /\ (Forall (fun e => s3_link e <> []) entries ->
      length (flat_map s3_link entries)
      = (length full_pages * 2000 + length last_page)%nat).
Proof.
  intros Hp Hfull Hlast Hfuel entries.
  split; [| split; [| split; [| split]]].
  - apply (granule_pages_run full_pages fuel ShortName t [] [] w last_page rest);
      assumption.
  - clear. revert t. induction full_pages as [| p ps IH]; intros t; simpl;
      [reflexivity | now rewrite IH].
  - apply advance_last.
  - apply increasing_NoDup.
  - intros Hl. rewrite (linked_count _ Hl). unfold entries.
    rewrite length_app, (concat_full_length _ Hfull). reflexivity.
Qed.

Lemma pagination_collects_every_page_witness :
  exists ts refs w1,
    granule_pages 3 "ECCO_L4_SSH_05DEG_DAILY_V4R4" "1992-01-01,2004-12-31" [] []
                  Scenario.three_pages
    = Return (ts, refs) w1
    /\ length refs = 4500%nat
    /\ NoDup ts
    /\ map temporal (requests w1)
       = ["1992-01-01,2004-12-31"; "1997-06-24,2004-12-31"; "2002-12-15,2004-12-31"]
    /\ pending w1 = [].
Proof.
  assert (Hfull : Forall (fun p => length p = page_size)
                    [Scenario.daily_page 0 2000; Scenario.daily_page 2000 2000]).
  { constructor; [vm_compute; reflexivity |].
    constructor; [vm_compute; reflexivity | constructor]. }
  assert (Hlast : (length (Scenario.daily_page 4000 500) < page_size)%nat).
  { replace (length (Scenario.daily_page 4000 500)) with 500%nat
      by (vm_compute; reflexivity).
    unfold page_size. lia. }
  destruct (pagination_collects_every_page 3 "ECCO_L4_SSH_05DEG_DAILY_V4R4"
              "1992-01-01,2004-12-31"
              [Scenario.daily_page 0 2000; Scenario.daily_page 2000 2000]
              (Scenario.daily_page 4000 500) [] Scenario.three_pages
              eq_refl Hfull Hlast (le_n 3))
    as (Hrun & _ & _ & Hnodup & Hcount).
  eexists _, _, _. split; [exact Hrun |].
  split; [| split; [| split]].
  - rewrite Hcount; [vm_compute; reflexivity |].
    apply Forall_forall. intros e He.
    assert (Hb : forallb (fun e => negb (Nat.eqb (length (s3_link e)) 0))
                   (concat [Scenario.daily_page 0 2000; Scenario.daily_page 2000 2000]
                    ++ Scenario.daily_page 4000 500) = true)
      by (vm_compute; reflexivity).
    rewrite forallb_forall in Hb. specialize (Hb e He).
    destruct (s3_link e); [discriminate Hb | discriminate].
  - apply Hnodup. apply increasingb_Sorted. vm_compute. reflexivity.
  - vm_compute. reflexivity.
  - reflexivity.
Defined.

(** ** The single-day collapse *)

Lemma slice1_length {A} (i : nat) (l : list A) : (length (slice1 i l) <= 1)%nat.
Proof. unfold slice1. rewrite length_firstn. lia. Qed.

(** A single-day query of a monthly or daily dataset never gives more than
    one reference. *)
Lemma single_day_at_most_one fuel StartDate params ShortName w l w1 :
  is_aggregate ShortName = true ->
  get_granules fuel StartDate params ShortName true w = Return l w1 ->
  (length l <= 1)%nat.
Proof.
  intros Hagg H. unfold get_granules in H.
  apply bind_inv in H as ([ts refs] & wa & _ & H).
  rewrite Hagg in H. cbn [andb] in H.
  destruct (1 <? length refs)%nat eqn:Hlen.
  - destruct (Date.parse_day StartDate); [| discriminate].
    destruct (argmin _); [| discriminate].
    inversion H; subst. apply slice1_length.
  - inversion H; subst. apply Nat.ltb_ge in Hlen. exact Hlen.
Qed.

(** C3: a query for the single day 1992-01-02 of a daily dataset, answered
    with the granules of January 1st, 2nd and 3rd of which the first has no
    direct S3 link.  The start time nearest the start date is that of the
    entry of January 2nd, whose link is the file of January 2nd; what the
    function returns is the file of January 3rd: [day_index] counts
    entries, [s3_files_list] holds only the entries that had a link. *)
Theorem single_day_collapse_misaligned :
  is_aggregate "ECCO_L4_SSH_05DEG_DAILY_V4R4" = true
  /\ option_map Date.ns_of_day (Date.parse_day "1992-01-02")
     = Some (time_start (Scenario.daily_entry 1))
  /\ s3_link (Scenario.daily_entry 1) = ["s3://podaac/SSH_DAILY_1992-01-02.nc"]
  /\ exists w1,
       get_granules 1 "1992-01-02"
         (mkParams "ECCO_L4_SSH_05DEG_DAILY_V4R4" "1992-01-02,1992-01-03")
         "ECCO_L4_SSH_05DEG_DAILY_V4R4" true Scenario.around_jan_2
       = Return ["s3://podaac/SSH_DAILY_1992-01-03.nc"] w1.
Proof.
  split; [reflexivity |]. split; [reflexivity |]. split; [reflexivity |].
  eexists. vm_compute. reflexivity.
Qed.

(** What the loop has collected when it returns: the start times and the
    links of one and the same sequence of entries. *)
Lemma granule_pages_collects fuel :
  forall ShortName t ts0 acc0 w ts refs w1,
    granule_pages fuel ShortName t ts0 acc0 w = Return (ts, refs) w1 ->
    exists es, ts = ts0 ++ map time_start es /\ refs = acc0 ++ flat_map s3_link es.
Proof.
  induction fuel as [| fuel IH]; intros ShortName t ts0 acc0 w ts refs w1 H;
    [discriminate |].
  cbn [granule_pages] in H.
  apply bind_inv in H as (response & wa & _ & H).
  destruct (feed response) as [entries |].
  - destruct (length entries <? page_size)%nat.
    + inversion H; subst. now exists entries.
    + destruct (rev entries) as [| e r]; [discriminate |].
      apply IH in H as (es & -> & ->).
      exists (entries ++ es).
      now rewrite map_app, flat_map_app, !app_assoc.
  - destruct (errors response) as [[| m ms] |]; discriminate.
Qed.

Lemma argmin_from_least (r : list Z) :
  forall pre best_i best,
    (best_i < length pre)%nat ->
    nth best_i pre 0%Z = best ->
    Forall (fun y => (best <= y)%Z) pre ->
    let k := argmin_from r (length pre) best_i best in
    (k < length (pre ++ r))%nat
    /\ Forall (fun y => (nth k (pre ++ r) 0 <= y)%Z) (pre ++ r).
Proof.
  induction r as [| x r IH]; intros pre best_i best Hi Hnth Hall; cbn [argmin_from].
  - rewrite app_nil_r. split; [exact Hi | now rewrite Hnth].
  - replace (pre ++ x :: r) with ((pre ++ [x]) ++ r) by now rewrite <- app_assoc.
    replace (S (length pre)) with (length (pre ++ [x]))
      by (rewrite length_app; simpl; lia).
    destruct (x <? best)%Z eqn:Hlt.
    + apply Z.ltb_lt in Hlt. apply IH.
      * rewrite length_app. simpl. lia.
      * rewrite app_nth2, Nat.sub_diag by lia. reflexivity.
      * apply Forall_app. split; [| repeat constructor; lia].
        eapply Forall_impl; [| exact Hall]. simpl. intros; lia.
    + apply Z.ltb_ge in Hlt. apply IH.
      * rewrite length_app. simpl. lia.
      * now rewrite app_nth1.
      * apply Forall_app. split; [exact Hall | repeat constructor; lia].
Qed.

Lemma argmin_least (l : list Z) (k : nat) :
  argmin l = Some k ->
  (k < length l)%nat /\ Forall (fun y => (nth k l 0 <= y)%Z) l.
Proof.
  destruct l as [| x r]; [discriminate |].
  intros H. inversion H; subst.
  apply (argmin_from_least r [x] 0%nat x); simpl; auto.
  repeat constructor. lia.
Qed.

Lemma slice1_linked (es : list Entry) :
  Forall (fun e => s3_link e <> []) es ->
  forall k d, (k < length es)%nat ->
              slice1 k (flat_map s3_link es) = s3_link (nth k es d).
Proof.
  induction 1 as [| e es He _ IH]; intros k d Hk; [inversion Hk |].
  pose proof (s3_link_length e) as Hlen.
  cbn [flat_map]. destruct (s3_link e) as [| h [| h' t]] eqn:Hl;
    [congruence | | simpl in Hlen; lia].
  destruct k as [| k].
  - simpl. now rewrite Hl.
  - simpl in Hk. cbn [nth]. rewrite <- (IH k d) by lia. reflexivity.
Qed.

(** When every entry the catalogue returned has a direct S3 link, the
    single-day collapse keeps the link of an entry whose start time is
    nearest the start date. *)
Lemma single_day_nearest_when_linked fuel StartDate params ShortName w l w1 :
  is_aggregate ShortName = true ->
  get_granules fuel StartDate params ShortName true w = Return l w1 ->
  exists es,
    granule_pages fuel (ShortName_of params) (temporal params) [] [] w
    = Return (map time_start es, flat_map s3_link es) w1
    /\ (Forall (fun e => s3_link e <> []) es ->
        (1 < length es)%nat ->
        exists d e,
          Date.parse_day StartDate = Some d
          /\ In e es
          /\ l = s3_link e
          /\ Forall (fun e' =>
                       (Z.abs (time_start e - Date.ns_of_day d)
                        <= Z.abs (time_start e' - Date.ns_of_day d))%Z) es).
Proof.
  intros Hagg H. unfold get_granules in H.
  apply bind_inv in H as ([ts refs] & wa & Hrun & H).
  destruct (granule_pages_collects _ _ _ _ _ _ _ _ _ Hrun) as (es & Hts & Hrefs).
  simpl in Hts, Hrefs. subst ts refs.
  rewrite Hagg in H. cbn [andb] in H.
  exists es.
  assert (Hw : (Forall (fun e => s3_link e <> []) es -> (1 < length es)%nat ->
                (1 <? length (flat_map s3_link es))%nat = true)).
  { intros Hl Hn. rewrite (linked_count _ Hl). now apply Nat.ltb_lt. }
  destruct (1 <? length (flat_map s3_link es))%nat eqn:Hlen.
  - destruct (Date.parse_day StartDate) as [d |]; [| discriminate].
    destruct (argmin _) as [k |] eqn:Hk; [| discriminate].
    inversion H; subst. split; [exact Hrun |].
    intros Hl Hn. apply argmin_least in Hk as (Hklt & Hmin).
    rewrite !length_map in Hklt.
    exists d, (nth k es (mkEntry 0 0 [])).
    split; [reflexivity |]. split; [now apply nth_In |].
    split; [now apply slice1_linked |].
    apply Forall_forall. intros e' He'.
    rewrite Forall_forall in Hmin.
    specialize (Hmin _ (in_map (fun t => Z.abs (t - Date.ns_of_day d)) _ _
                          (in_map time_start _ _ He'))).
    rewrite nth_indep
      with (d' := Z.abs (time_start (mkEntry 0 0 []) - Date.ns_of_day d))
      in Hmin.
    2:{ rewrite !length_map. exact Hklt. }
    rewrite (map_nth (fun t => Z.abs (t - Date.ns_of_day d))) in Hmin.
    rewrite (map_nth time_start) in Hmin. exact Hmin.
  - inversion H; subst. split; [exact Hrun |].
    intros Hl Hn. discriminate (Hw Hl Hn).
Qed.

(** ** The monthly post-filter *)

Lemma list_remove_middle (x : string) (rest : list string) :
  forall kept, ~ In x kept -> list_remove x (kept ++ x :: rest) = Some (kept ++ rest).
Proof.
  induction kept as [| y kept IH]; intros Hnin; simpl.
  - now rewrite String.eqb_refl.
  - destruct (x =? y) eqn:Hxy.
    + apply String.eqb_eq in Hxy. subst. exfalso. apply Hnin. now left.
    + rewrite IH; [reflexivity |]. intros Hin. apply Hnin. now right.
Qed.

(** The loop over the list, run on a copy of it, is a filter. *)
Lemma prune_snapshots_filter (todo : list string) :
  forall kept w,
    Forall (fun f => first_of_month f = true) kept ->
    Forall (fun f => snapshot_date f <> None) todo ->
    prune_snapshots todo (kept ++ todo) w
    = Return (kept ++ filter first_of_month todo) w.
Proof.
  induction todo as [| x rest IH]; intros kept w Hkept Hdated; simpl.
  - reflexivity.
  - inversion Hdated as [| ? ? Hx Hrest]; subst.
    unfold first_of_month at 1.
    destruct (snapshot_date x) as [date |] eqn:Hdate; [| congruence].
    destruct (not_first_of_month date) eqn:Hnot; simpl.
    + rewrite list_remove_middle.
      * now apply IH.
      * intros Hin. rewrite Forall_forall in Hkept. specialize (Hkept _ Hin).
        unfold first_of_month in Hkept. rewrite Hdate, Hnot in Hkept.
        discriminate.
    + replace (kept ++ x :: rest) with ((kept ++ [x]) ++ rest)
        by now rewrite <- app_assoc.
      rewrite IH; auto.
      * now rewrite <- app_assoc.
      * apply Forall_app. split; [exact Hkept |]. repeat constructor.
        unfold first_of_month. now rewrite Hdate, Hnot.
Qed.

(** The loop returns only if every file name carries a date. *)
Lemma prune_snapshots_dated (todo : list string) :
  forall copy w l w1,
    prune_snapshots todo copy w = Return l w1 ->
    Forall (fun f => snapshot_date f <> None) todo.
Proof.
  induction todo as [| x rest IH]; intros copy w l w1 H; simpl in H.
  - constructor.
  - destruct (snapshot_date x) as [date |] eqn:Hdate; [| discriminate].
    constructor; [congruence |].
    destruct (not_first_of_month date).
    + destruct (list_remove x copy); [| discriminate]. now apply IH in H.
    + now apply IH in H.
Qed.

Lemma first_of_month_day (f : string) :
  first_of_month f = true ->
  exists date, snapshot_date f = Some date /\ Str.drop 8 date = "01".
Proof.
  unfold first_of_month, not_first_of_month.
  destruct (snapshot_date f) as [date |]; [| discriminate].
  intros H. exists date. split; [reflexivity |].
  apply negb_true_iff, negb_false_iff, String.eqb_eq in H. exact H.
Qed.

Section Query.

Variable date_adjustment : string -> string -> string -> string * string * bool.

Local Abbreviation query := (ecco_podaac_s3_query date_adjustment).

(** The query, once the dates are adjusted: the granules, then the
    post-filter. *)
Lemma query_unfold fuel ShortName StartDate EndDate interval S' E' flag w :
  date_adjustment ShortName StartDate EndDate = (S', E', flag) ->
  query fuel ShortName StartDate EndDate interval w
  = (s3_files_list <-
       get_granules fuel S' (mkParams ShortName (S' ++ "," ++ E')) ShortName flag ;;
     if Str.contains "SNAPSHOT" ShortName then
       if interval =? "monthly"
       then prune_snapshots s3_files_list s3_files_list
       else ret s3_files_list
     else ret s3_files_list) w.
Proof. intros H. unfold ecco_podaac_s3_query. now rewrite H. Qed.

(** C5: for a snapshot dataset queried with the monthly interval, every
    reference returned carries a date whose day is [01], and the list
    returned is what [get_granules] found with the references of every other
    day taken out; the query does return that list as soon as
    [get_granules] returns and every reference carries a date. *)
Theorem monthly_snapshots_first_of_month
    (fuel : nat) (ShortName StartDate EndDate S' E' : string) (flag : bool)
    (w : World) :
  Str.contains "SNAPSHOT" ShortName = true ->
  date_adjustment ShortName StartDate EndDate = (S', E', flag) ->
  (forall l w1,
     query fuel ShortName StartDate EndDate "monthly" w = Return l w1 ->
     Forall (fun f => exists date,
                 snapshot_date f = Some date /\ Str.drop 8 date = "01") l
     /\ exists g,
          get_granules fuel S' (mkParams ShortName (S' ++ "," ++ E'))
                       ShortName flag w = Return g w1
          /\ l = filter first_of_month g)
  /\ (forall g w1,
        get_granules fuel S' (mkParams ShortName (S' ++ "," ++ E'))
                     ShortName flag w = Return g w1 ->
        Forall (fun f => snapshot_date f <> None) g ->
        query fuel ShortName StartDate EndDate "monthly" w
        = Return (filter first_of_month g) w1).
Proof.
  intros Hsnap Hdates. split.
  - intros l w1 H. rewrite (query_unfold _ _ _ _ _ _ _ _ _ Hdates) in H.
    apply bind_inv in H as (g & wa & Hg & H). rewrite Hsnap in H. simpl in H.
    pose proof (prune_snapshots_dated _ _ _ _ _ H) as Hdated.
    pose proof (prune_snapshots_filter g [] wa (Forall_nil _) Hdated) as Hf.
    cbn [app] in Hf. rewrite Hf in H.
    inversion H; subst. split.
    + apply Forall_forall. intros f Hin. apply filter_In in Hin as [_ Hin].
      now apply first_of_month_day.
    + now exists g.
  - intros g w1 Hg Hdated. rewrite (query_unfold _ _ _ _ _ _ _ _ _ Hdates).
    rewrite (bind_Return _ _ _ _ _ Hg). rewrite Hsnap. simpl.
    apply (prune_snapshots_filter g [] w1 (Forall_nil _) Hdated).
Qed.

(** The interval a caller gives to [ecco_podaac_s3_open] or
    [ecco_podaac_s3_get] changes nothing. *)
Lemma open_ignores_interval fuel ShortName StartDate EndDate interval :
  ecco_podaac_s3_open date_adjustment fuel ShortName StartDate EndDate interval
  = ecco_podaac_s3_open date_adjustment fuel ShortName StartDate EndDate "monthly".
Proof. reflexivity. Qed.

Lemma get_ignores_interval executor_map fuel ShortName StartDate EndDate interval
      root n_workers force return_files :
  ecco_podaac_s3_get date_adjustment executor_map fuel ShortName StartDate
                     EndDate interval root n_workers force return_files
  = ecco_podaac_s3_get date_adjustment executor_map fuel ShortName StartDate
                       EndDate "monthly" root n_workers force return_files.
Proof. reflexivity. Qed.

End Query.

Lemma monthly_snapshots_first_of_month_witness :
  exists w1,
    ecco_podaac_s3_query Scenario.dates_as_given 1
      "ECCO_L4_SSH_LLC0090GRID_SNAPSHOT_V4R4" "1992-01-01" "1992-01-02" "monthly"
      Scenario.two_snapshots
    = Return ["s3://podaac/SSH_SNAPSHOT_1992-01-01.nc"] w1.
Proof.
  eexists.
  destruct (monthly_snapshots_first_of_month Scenario.dates_as_given 1
              "ECCO_L4_SSH_LLC0090GRID_SNAPSHOT_V4R4" "1992-01-01" "1992-01-02"
              "1992-01-01" "1992-01-02" false Scenario.two_snapshots
              eq_refl eq_refl) as (_ & H).
  apply (H ["s3://podaac/SSH_SNAPSHOT_1992-01-01.nc";
            "s3://podaac/SSH_SNAPSHOT_1992-01-02.nc"]).
  - vm_compute. reflexivity.
  - repeat constructor; discriminate.
Defined.

(** C4: a caller asks [ecco_podaac_s3_open] and [ecco_podaac_s3_get] for the
    daily snapshots of 1992-01-01 to 1992-01-02.  The catalogue query with
    the interval ['daily'] gives the files of both days; both functions
    return the file of the first of the month alone, the result of the
    query with ['monthly']. *)
Theorem open_and_get_drop_snapshot_interval :
  (exists w1,
     ecco_podaac_s3_query Scenario.dates_as_given 1
       "ECCO_L4_SSH_LLC0090GRID_SNAPSHOT_V4R4" "1992-01-01" "1992-01-02" "daily"
       Scenario.two_snapshots
     = Return ["s3://podaac/SSH_SNAPSHOT_1992-01-01.nc";
               "s3://podaac/SSH_SNAPSHOT_1992-01-02.nc"] w1)
  /\ (exists w1,
        ecco_podaac_s3_open Scenario.dates_as_given 1
          "ECCO_L4_SSH_LLC0090GRID_SNAPSHOT_V4R4" "1992-01-01" "1992-01-02" "daily"
          Scenario.two_snapshots
        = Return (One (RemoteFile "s3://podaac/SSH_SNAPSHOT_1992-01-01.nc")) w1)
  /\ (exists w1,
        ecco_podaac_s3_get Scenario.dates_as_given Scenario.orderly_pool 1
          "ECCO_L4_SSH_LLC0090GRID_SNAPSHOT_V4R4" "1992-01-01" "1992-01-02" "daily"
          (Some "/data") 6 false true Scenario.two_snapshots
        = Return
            (Some (One (LocalPath
               "/data/ECCO_L4_SSH_LLC0090GRID_SNAPSHOT_V4R4/SSH_SNAPSHOT_1992-01-01.nc")))
            w1).
Proof.
  split; [| split]; eexists; vm_compute; reflexivity.
Qed.

(** ** Results handed to the caller *)

Lemma items_collapse (l : list item) : items (collapse l) = l.
Proof. destruct l as [| i [| j r]]; reflexivity. Qed.

Lemma collapse_collapsed (l : list item) : collapsed (collapse l).
Proof.
  intros i H. rewrite items_collapse in H. now subst.
Qed.

Lemma for_each_open s3 (urls : list string) :
  forall w r w1,
    for_each (s3_open s3) urls w = Return r w1 -> r = map RemoteFile urls.
Proof.
  induction urls as [| u urls IH]; intros w r w1 H; simpl in H.
  - now inversion H.
  - apply bind_inv in H as (i & wa & Hi & H).
    apply bind_inv in H as (r' & wb & Hr & H). inversion H; subst.
    apply IH in Hr. subst. f_equal.
    unfold s3_open, bind, log_call, ret, raise in Hi.
    destruct (lookup_object s3 u); now inversion Hi.
Qed.

Lemma dict_set_Forall (P : string * retrieval -> Prop) k v d :
  P (k, v) -> Forall P d -> Forall P (dict_set k v d).
Proof.
  intros Hv. induction 1 as [| [k' v'] d Hkv Hd IH]; simpl.
  - now repeat constructor.
  - destruct (k =? k'); constructor; auto.
Qed.

Lemma dict_set_keys k v d name :
  name = k \/ In name (map fst d) -> In name (map fst (dict_set k v d)).
Proof.
  induction d as [| [k' v'] d IH]; simpl.
  - intros [-> | []]. now left.
  - destruct (k =? k') eqn:Hk; simpl.
    + apply String.eqb_eq in Hk. subst k'. intros [-> | [-> | H]]; auto.
    + intros [-> | [-> | H]]; auto.
Qed.

Section Dispatch.

Variable date_adjustment : string -> string -> string -> string * string * bool.
Variable executor_map :
  S3FileSystem -> list string -> string -> nat -> bool -> M (list string).

Local Abbreviation download_all' := (download_all executor_map).
Local Abbreviation diskaware :=
  (ecco_podaac_s3_get_diskaware date_adjustment executor_map).

(** The download branch fills the dict with collapsed lists of local paths,
    one key for every dataset. *)
Lemma download_all_values (P : string * retrieval -> Prop) s3 root n force :
  (forall k l, P (k, collapse (map LocalPath l))) ->
  forall todo d w d' w1,
    download_all' s3 root n force todo d w = Return d' w1 ->
    Forall P d -> Forall P d'.
Proof.
  intros HP. induction todo as [| [k files] todo IH]; intros d w d' w1 H Hd;
    simpl in H.
  - now inversion H; subst.
  - apply bind_inv in H as (v & wa & _ & H).
    destruct v as [l |]; [| discriminate].
    apply IH in H; auto. now apply dict_set_Forall.
Qed.

Lemma download_all_keys s3 root n force :
  forall todo d w d' w1,
    download_all' s3 root n force todo d w = Return d' w1 ->
    forall name, In name (map fst todo) \/ In name (map fst d) ->
                 In name (map fst d').
Proof.
  induction todo as [| [k files] todo IH]; intros d w d' w1 H name Hin;
    simpl in H.
  - inversion H; subst. now destruct Hin.
  - apply bind_inv in H as (v & wa & _ & H).
    destruct v as [l |]; [| discriminate].
    apply (IH _ _ _ _ H). simpl in Hin.
    destruct Hin as [[<- | Hin] | Hin]; auto; right; apply dict_set_keys; auto.
Qed.

(** So does the remote branch, with opened files. *)
Lemma open_all_values (P : string * retrieval -> Prop) s3 :
  (forall k l, P (k, collapse (map RemoteFile l))) ->
  forall todo d w d' w1,
    open_all s3 todo d w = Return d' w1 ->
    Forall P d -> Forall P d'.
Proof.
  intros HP. induction todo as [| [k files] todo IH]; intros d w d' w1 H Hd;
    simpl in H.
  - now inversion H; subst.
  - apply bind_inv in H as (r & wa & Hr & H).
    apply for_each_open in Hr. subst r.
    apply IH in H; auto. now apply dict_set_Forall.
Qed.

Lemma open_all_keys s3 :
  forall todo d w d' w1,
    open_all s3 todo d w = Return d' w1 ->
    forall name, In name (map fst todo) \/ In name (map fst d) ->
                 In name (map fst d').
Proof.
  induction todo as [| [k files] todo IH]; intros d w d' w1 H name Hin;
    simpl in H.
  - inversion H; subst. now destruct Hin.
  - apply bind_inv in H as (r & wa & _ & H).
    apply (IH _ _ _ _ H). simpl in Hin.
    destruct Hin as [[<- | Hin] | Hin]; auto; right; apply dict_set_keys; auto.
Qed.

Lemma survey_lengths fuel s3 StartDate EndDate interval root :
  forall names w sizes lists w1,
    survey date_adjustment fuel s3 names StartDate EndDate interval root w
    = Return (sizes, lists) w1 ->
    length lists = length names.
Proof.
  induction names as [| name names IH]; intros w sizes lists w1 H; simpl in H.
  - now inversion H.
  - apply bind_inv in H as (files & wa & _ & H).
    apply bind_inv in H as (u & wb & _ & H).
    apply bind_inv in H as (size & wc & _ & H).
    apply bind_inv in H as ([sizes' lists'] & wd & Hrest & H).
    inversion H; subst. simpl. f_equal. now apply IH in Hrest.
Qed.

Lemma combine_keys (names : list string) (lists : list (list string)) :
  length lists = length names -> map fst (combine names lists) = names.
Proof.
  revert lists. induction names as [| n names IH]; intros [| l lists] H;
    simpl in *; try discriminate; [reflexivity |].
  f_equal. apply IH. now inversion H.
Qed.

(** The dispatcher, once the datasets are measured and the disk is probed:
    one test, then one loop or the other over all the datasets. *)
Lemma diskaware_unfold fuel names StartDate EndDate interval root frac n force
      w sizes lists w1 avail w2 :
  survey date_adjustment fuel (store w) names StartDate EndDate
         (interval_of interval names) (root_of root w) w
  = Return (sizes, lists) w1 ->
  probe_free_space fuel (root_of root w) w1 = Return (Available avail) w2 ->
  diskaware fuel names StartDate EndDate interval root frac n force w
  = if within_budget (Float64.sum (size_array sizes)) avail (clamp_frac frac)
    then (d <- download_all' (store w) (root_of root w) n force
                             (combine names lists) [] ;;
          ret (Retrieved d)) w2
    else (d <- open_all (store w) (combine names lists) [] ;;
          ret (Retrieved d)) w2.
Proof.
  intros Hs Hp. unfold ecco_podaac_s3_get_diskaware.
  unfold bind at 1. unfold init_S3FileSystem at 1.
  unfold bind at 1. unfold root_dir at 1.
  assert (Hroot : (match root with
                   | Some d => Return d w
                   | None => Return (Path.join (Path.join (home w) "Downloads")
                                               "ECCO_V4r4_PODAAC") w
                   end) = Return (root_of root w) w) by now destruct root.
  rewrite Hroot. fold (interval_of interval names).
  rewrite (bind_Return _ _ _ _ _ Hs). rewrite (bind_Return _ _ _ _ _ Hp).
  now destruct (within_budget _ _ _).
Qed.

End Dispatch.

(** With no room left at all nothing is downloaded. *)
Lemma within_budget_full_disk (sizes_sum frac : Q) :
  within_budget sizes_sum 0 frac = false.
Proof. reflexivity. Qed.

Lemma local_items (l : list string) :
  Forall is_local (items (collapse (map LocalPath l))).
Proof.
  rewrite items_collapse. apply Forall_forall. intros i Hi.
  apply in_map_iff in Hi as (p & <- & _). exact I.
Qed.

Lemma remote_items (l : list string) :
  Forall is_remote (items (collapse (map RemoteFile l))).
Proof.
  rewrite items_collapse. apply Forall_forall. intros i Hi.
  apply in_map_iff in Hi as (p & <- & _). exact I.
Qed.

(** The decision is one for the whole call: whatever the dispatcher returns
    as a dict holds local paths only, or remote files only. *)
Lemma dispatch_never_mixes
    (date_adjustment : string -> string -> string -> string * string * bool)
    (executor_map : S3FileSystem -> list string -> string -> nat -> bool ->
                    M (list string))
    (fuel : nat) (ShortNames : list string) (StartDate EndDate : string)
    (snapshot_interval download_root_dir : option string) (max_avail_frac : Q)
    (n_workers : nat) (force_redownload : bool)
    (d : list (string * retrieval)) (w w1 : World) :
  ecco_podaac_s3_get_diskaware date_adjustment executor_map fuel ShortNames
    StartDate EndDate snapshot_interval download_root_dir max_avail_frac
    n_workers force_redownload w = Return (Retrieved d) w1 ->
  all_downloaded d \/ all_opened d.
Proof.
  intros H. unfold ecco_podaac_s3_get_diskaware in H.
  apply bind_inv in H as (s3 & wa & _ & H).
  apply bind_inv in H as (root & wb & _ & H).
  apply bind_inv in H as ([sizes lists] & wc & _ & H).
  apply bind_inv in H as (probe & wd & _ & H).
  destruct probe as [avail |]; [| discriminate].
  destruct (within_budget _ _ _);
    apply bind_inv in H as (d' & we & Hd & H); inversion H; subst.
  - left.
    apply (download_all_values executor_map
             (fun kv => Forall is_local (items (snd kv)))
             _ _ _ _ (fun _ l => local_items l) _ _ _ _ _ Hd).
    constructor.
  - right.
    apply (open_all_values (fun kv => Forall is_remote (items (snd kv)))
             _ (fun _ l => remote_items l) _ _ _ _ _ Hd).
    constructor.
Qed.

(** With [max_avail_frac = 0.5] and 100 GiB free, two datasets of 20 GiB each
    are both downloaded. *)
Example dispatch_forty_GiB :
  exists w3,
    ecco_podaac_s3_get_diskaware Scenario.dates_as_given Scenario.orderly_pool 2
      ["ECCO_L4_SSH_05DEG_MONTHLY_V4R4"; "ECCO_L4_SSH_LLC0090GRID_MONTHLY_V4R4"]
      "1992-01" "1992-02" None (Some "/data") (1 # 2) 6 false Scenario.forty_GiB
    = Return
        (Retrieved
           [ ("ECCO_L4_SSH_05DEG_MONTHLY_V4R4",
              One (LocalPath
                     "/data/ECCO_L4_SSH_05DEG_MONTHLY_V4R4/SSH_MONTHLY_1992-01.nc"));
             ("ECCO_L4_SSH_LLC0090GRID_MONTHLY_V4R4",
              One (LocalPath
                     "/data/ECCO_L4_SSH_LLC0090GRID_MONTHLY_V4R4/SSH_MONTHLY_1992-02.nc")) ])
        w3.
Proof. eexists. vm_compute. reflexivity. Qed.

(** The same call on two datasets of 30 GiB each: 60 GiB are more than half of
    the 100 GiB free, and both datasets are opened remotely. *)
Example dispatch_sixty_GiB :
  exists w3,
    ecco_podaac_s3_get_diskaware Scenario.dates_as_given Scenario.orderly_pool 2
      ["ECCO_L4_SSH_05DEG_SNAPSHOT_V4R4"; "ECCO_L4_SSH_LLC0090GRID_SNAPSHOT_V4R4"]
      "1992-01" "1992-02" None (Some "/data") (1 # 2) 6 false Scenario.sixty_GiB
    = Return
        (Retrieved
           [ ("ECCO_L4_SSH_05DEG_SNAPSHOT_V4R4",
              One (RemoteFile "s3://podaac/SSH_SNAPSHOT_1992-01-01.nc"));
             ("ECCO_L4_SSH_LLC0090GRID_SNAPSHOT_V4R4",
              One (RemoteFile "s3://podaac/SSH_SNAPSHOT_1992-02-01.nc")) ])
        w3.
Proof. eexists. vm_compute. reflexivity. Qed.

(** The sizes are added and divided as floats.  A granule of [2^53 + 1]
    bytes is more than half of the [2^54] bytes free; as a float its size is
    [2^53], the quotient is 0.5, and the granule is downloaded. *)
Example dispatch_rounds_the_sizes :
  ~ inject_Z (2 ^ 53 + 1) <= (1 # 2) * inject_Z (free_bytes Scenario.odd_size)
  /\ exists w3,
       ecco_podaac_s3_get_diskaware Scenario.dates_as_given Scenario.orderly_pool 2
         ["ECCO_L4_SSH_05DEG_MONTHLY_V4R4"] "1992-01" "1992-01" None
         (Some "/data") (1 # 2) 6 false Scenario.odd_size
       = Return
           (Retrieved
              [ ("ECCO_L4_SSH_05DEG_MONTHLY_V4R4",
                 One (LocalPath
                        "/data/ECCO_L4_SSH_05DEG_MONTHLY_V4R4/SSH_MONTHLY_1992-01.nc")) ])
           w3.
Proof.
  split.
  - unfold Qle. vm_compute. intros H. now apply H.
  - eexists. vm_compute. reflexivity.
Qed.

(** C7, on a full disk.  The only granule asked for is already present, so
    the bytes to download are 0, which is within half of the 0 bytes free;
    the quotient of the two is not a number, the test [avail_frac <=
    max_avail_frac] fails as it does for every size and every fraction on
    such a disk, and the dataset is opened remotely instead of being returned
    as the local file. *)
Theorem dispatch_on_a_full_disk :
  let root := "/data" in
  let name := "ECCO_L4_SSH_05DEG_MONTHLY_V4R4" in
  let granule := "s3://podaac/SSH_MONTHLY_1992-01.nc" in
  (forall sizes_sum max_avail_frac,
     within_budget sizes_sum 0 max_avail_frac = false)
  /\ exists w1,
       survey Scenario.dates_as_given 2 Scenario.bucket [name] "1992-01"
              "1992-01" "monthly" root Scenario.full_disk
       = Return ([0%Z], [[granule]]) w1
       /\ isfile w1 (Path.join (Path.div root name) (Path.basename granule)) = true
       /\ probe_free_space 2 root w1 = Return (Available 0) w1
       /\ inject_Z (sum_sizes [0%Z]) <= (1 # 2) * inject_Z 0
       /\ exists w3,
            ecco_podaac_s3_get_diskaware Scenario.dates_as_given
              Scenario.orderly_pool 2 [name] "1992-01" "1992-01" None
              (Some root) (1 # 2) 6 false Scenario.full_disk
            = Return (Retrieved [(name, One (RemoteFile granule))]) w3
            /\ s3_calls w3 = [OpenFile granule].
Proof.
  split; [reflexivity |].
  eexists. split; [vm_compute; reflexivity |].
  split; [reflexivity |]. split; [vm_compute; reflexivity |].
  split; [unfold Qle; vm_compute; discriminate |].
  eexists. split; vm_compute; reflexivity.
Qed.

(** ** One item comes as a scalar *)

(** C6, as the functions have it: what [ecco_podaac_s3_open] returns, what
    [ecco_podaac_s3_get] returns when asked for the downloaded files, and
    every value of the dict of [ecco_podaac_s3_get_diskaware] is never a list
    of one element: a single item is returned as the item itself. *)
Theorem single_item_is_scalar
    (date_adjustment : string -> string -> string -> string * string * bool)
    (executor_map : S3FileSystem -> list string -> string -> nat -> bool ->
                    M (list string))
    (fuel : nat) (ShortName StartDate EndDate interval : string)
    (ShortNames : list string) (snapshot_interval download_root_dir : option string)
    (max_avail_frac : Q) (n_workers : nat) (force_redownload : bool) (w : World) :
  (forall r w1,
     ecco_podaac_s3_open date_adjustment fuel ShortName StartDate EndDate
                         interval w = Return r w1 ->
     collapsed r)
  /\ (forall r w1,
        ecco_podaac_s3_get date_adjustment executor_map fuel ShortName StartDate
          EndDate interval download_root_dir n_workers force_redownload true w
        = Return r w1 ->
        exists v, r = Some v /\ collapsed v)
  /\ (forall r w1,
        ecco_podaac_s3_get_diskaware date_adjustment executor_map fuel ShortNames
          StartDate EndDate snapshot_interval download_root_dir max_avail_frac
          n_workers force_redownload w = Return r w1 ->
        forall d, r = Retrieved d -> Forall (fun kv => collapsed (snd kv)) d).
Proof.
  split; [| split].
  - intros r w1 H. unfold ecco_podaac_s3_open in H.
    apply bind_inv in H as (l & wa & _ & H).
    apply bind_inv in H as (s3 & wb & _ & H).
    apply bind_inv in H as (open_files & wc & _ & H).
    inversion H; subst. apply collapse_collapsed.
  - intros r w1 H. unfold ecco_podaac_s3_get in H.
    apply bind_inv in H as (root & wa & _ & H).
    apply bind_inv in H as (u & wb & _ & H).
    apply bind_inv in H as (l & wc & _ & H).
    apply bind_inv in H as (s3 & wd & _ & H).
    apply bind_inv in H as (v & we & _ & H).
    destruct v as [paths |]; [| discriminate].
    inversion H; subst. eexists. split; [reflexivity |].
    apply collapse_collapsed.
  - intros r w1 H d ->. unfold ecco_podaac_s3_get_diskaware in H.
    apply bind_inv in H as (s3 & wa & _ & H).
    apply bind_inv in H as (root & wb & _ & H).
    apply bind_inv in H as ([sizes lists] & wc & _ & H).
    apply bind_inv in H as (probe & wd & _ & H).
    destruct probe as [avail |]; [| discriminate].
    destruct (within_budget _ _ _).
    + apply bind_inv in H as (d' & we & Hd & H). inversion H; subst.
      apply (download_all_values executor_map (fun kv => collapsed (snd kv))
               _ _ _ _ (fun _ l => collapse_collapsed _) _ _ _ _ _ Hd).
      constructor.
    + apply bind_inv in H as (d' & we & Hd & H). inversion H; subst.
      apply (open_all_values (fun kv => collapsed (snd kv))
               _ (fun _ l => collapse_collapsed _) _ _ _ _ _ Hd).
      constructor.
Qed.

Lemma single_item_is_scalar_witness :
  exists w1,
    ecco_podaac_s3_open Scenario.dates_as_given 1 "ECCO_L4_SSH_05DEG_MONTHLY_V4R4"
      "1992-01" "1992-01" "monthly" Scenario.one_month
    = Return (One (RemoteFile "s3://podaac/SSH_MONTHLY_1992-01.nc")) w1
    /\ collapsed (One (RemoteFile "s3://podaac/SSH_MONTHLY_1992-01.nc")).
Proof.
  eexists. split; [vm_compute; reflexivity |].
  destruct (single_item_is_scalar Scenario.dates_as_given Scenario.orderly_pool 1
              "ECCO_L4_SSH_05DEG_MONTHLY_V4R4" "1992-01" "1992-01" "monthly"
              [] None None 0 6 false Scenario.one_month) as (H & _ & _).
  eapply H. vm_compute. reflexivity.
Defined.

(** Against C6 as it is worded.  For a query that one granule matches,
    [ecco_podaac_s3_query] returns the list of that one reference, and
    [ecco_podaac_s3_get], not asked for the downloaded files, downloads the
    file and returns [None]. *)
Lemma query_returns_list_of_one :
  (exists w1,
     ecco_podaac_s3_query Scenario.dates_as_given 1 "ECCO_L4_SSH_05DEG_MONTHLY_V4R4"
       "1992-01" "1992-01" "monthly" Scenario.one_month
     = Return ["s3://podaac/SSH_MONTHLY_1992-01.nc"] w1)
  /\ (exists w1,
        ecco_podaac_s3_get Scenario.dates_as_given Scenario.orderly_pool 1
          "ECCO_L4_SSH_05DEG_MONTHLY_V4R4" "1992-01" "1992-01" "monthly"
          (Some "/data") 6 false false Scenario.one_month
        = Return None w1
        /\ isfile w1 "/data/ECCO_L4_SSH_05DEG_MONTHLY_V4R4/SSH_MONTHLY_1992-01.nc"
           = true).
Proof.
  split; eexists; [| split]; vm_compute; reflexivity.
Qed.

(** ** The probe of the free space *)

(** A path that exists ends the loop. *)
Lemma probe_found fuel query_dir w :
  exists_at w query_dir = true ->
  probe_free_space (S fuel) query_dir w = Return (Available (free_bytes w)) w.
Proof.
  intros H. cbn [probe_free_space]. unfold disk_usage_free. now rewrite H.
Qed.

(** A path that does not exist sends the loop to the parent. *)
Lemma probe_missing fuel query_dir w :
  exists_at w query_dir = false ->
  probe_free_space (S fuel) query_dir w
  = probe_free_space fuel (Path.parent query_dir) w.
Proof.
  intros H. cbn [probe_free_space]. unfold disk_usage_free. now rewrite H.
Qed.

(** The loop never raises and never takes the [return -1] of its inner
    [except]: when it ends, it ends with the free space. *)
Lemma probe_ends_with_free_space fuel :
  forall query_dir w,
    probe_free_space fuel query_dir w = OutOfFuel
    \/ exists avail_storage w1,
         probe_free_space fuel query_dir w = Return (Available avail_storage) w1.
Proof.
  induction fuel as [| fuel IH]; intros query_dir w; [now left |].
  cbn [probe_free_space]. unfold disk_usage_free, parent_dir, ret.
  destruct (exists_at w query_dir).
  - right. now eexists _, _.
  - apply IH.
Qed.

(** Once at the empty path, which names nothing and is its own head, the
    loop does not end. *)
Lemma probe_spins fuel w : probe_free_space fuel "" w = OutOfFuel.
Proof.
  induction fuel as [| fuel IH]; [reflexivity |].
  now rewrite (probe_missing fuel "" w eq_refl).
Qed.

(** C8: [ecco_podaac_s3_get_diskaware([], ..., download_root_dir='ECCO_data')]
    on a machine where the relative path [ECCO_data] does not exist.  The
    probe goes from ['ECCO_data'] to [''], the head [os.path.split] gives for
    a name without separator, and [''] is its own head: however many turns
    the loop is given, neither the loop nor the call returns or raises. *)
Theorem probe_does_not_terminate (fuel : nat) :
  Path.parent "ECCO_data" = "" /\ Path.parent "" = ""
  /\ probe_free_space fuel "ECCO_data" (Scenario.fresh (100 * Scenario.GiB) [])
     = OutOfFuel
  /\ ecco_podaac_s3_get_diskaware Scenario.dates_as_given Scenario.orderly_pool
       fuel [] "1992-01" "1992-01" None (Some "ECCO_data") (1 # 2) 6 false
       (Scenario.fresh (100 * Scenario.GiB) [])
     = OutOfFuel.
Proof.
  assert (Hprobe : probe_free_space fuel "ECCO_data"
                     (Scenario.fresh (100 * Scenario.GiB) []) = OutOfFuel).
  { destruct fuel as [| fuel]; [reflexivity |].
    rewrite probe_missing by reflexivity.
    apply probe_spins. }
  split; [reflexivity |]. split; [reflexivity |]. split; [exact Hprobe |].
  unfold ecco_podaac_s3_get_diskaware, bind at 1 2 3 4. simpl survey.
  cbn [init_S3FileSystem root_dir ret]. rewrite Hprobe. reflexivity.
Qed.

(** * Further properties *)

(** ** Batches of downloads *)



(** A call of [download_file] that raises: the directory is missing and
    nothing has happened, or the object could not be read. *)
Lemma download_file_raises s3 url output_dir force w e w1 :
  download_file s3 url output_dir force w = Raise e w1 ->
  (e = OutputDirMissing output_dir /\ w1 = w /\ isdir w output_dir = false)
  \/ (e = FileNotFoundError url /\ lookup_object s3 url = None
      /\ w1 = with_s3_calls
                (s3_calls w ++ [GetFile url (target_file output_dir url)]) w).
Proof.
  unfold download_file, target_file.
  destruct (isdir w output_dir) eqn:Hd; simpl.
  - destruct (isfile w _ && negb force); [discriminate |].
    unfold bind, s3_get_file, log_call, ret, raise. simpl.
    destruct (lookup_object s3 url); [discriminate |].
    intros H; inversion H; subst. right. auto.
  - intros H; inversion H; subst. left. auto.
Qed.

Lemma sequential_cons s3 dir force u urls w :
  download_sequentially s3 (u :: urls) dir force w
  = match download_file s3 u dir force w with
    | Return p w1 =>
        match download_sequentially s3 urls dir force w1 with
        | Return ps w2 => Return (p :: ps) w2
        | Raise e w2 => Raise e w2
        | OutOfFuel => OutOfFuel
        end
    | Raise e w1 => Raise e w1
    | OutOfFuel => OutOfFuel
    end.
Proof.
  unfold download_sequentially. simpl. unfold bind, ret.
  now destruct (download_file s3 u dir force w) as [p wa | |].
Qed.













(** X5: when the download directory does not exist, the wrapper raises for
    any batch that is not empty, before anything is transferred, and returns
    the empty list for an empty batch. *)
Theorem wrapper_without_directory
    (executor_map : S3FileSystem -> list string -> string -> nat -> bool ->
                    M (list string))
    (s3 : S3FileSystem) (download_dir : string) (n_workers : nat)
    (force_redownload : bool) (w : World) :
  isdir w download_dir = false ->
  download_files_s3_wrapper executor_map module_globals s3 [] download_dir
    n_workers force_redownload w = Return (Some []) w
  /\ forall u urls,
       download_files_s3_wrapper executor_map module_globals s3 (u :: urls)
         download_dir n_workers force_redownload w
       = Raise (OutputDirMissing download_dir) w.
Proof.
  intros Hd. split.
  - now rewrite wrapper_module.
  - intros u urls. rewrite wrapper_module. unfold bind.
    now rewrite sequential_cons, (download_file_no_dir _ _ _ _ _ Hd).
Qed.

Lemma wrapper_without_directory_witness :
  download_files_s3_wrapper Scenario.orderly_pool module_globals Scenario.bucket
    ["s3://podaac/SSH_MONTHLY_1992-01.nc"] "/nowhere" 6 false (Scenario.fresh 0 [])
  = Raise (OutputDirMissing "/nowhere") (Scenario.fresh 0 []).
Proof.
  apply (wrapper_without_directory Scenario.orderly_pool Scenario.bucket
           "/nowhere" 6 false (Scenario.fresh 0 []) eq_refl).
Defined.

(** ** The catalogue *)

(** A response without a feed ends the loop with an exception. *)
Lemma granule_pages_no_feed fuel ShortName t ts acc w r rest :
  pending w = r :: rest ->
  feed r = None ->
  granule_pages (S fuel) ShortName t ts acc w
  = Raise match errors r with
          | Some (msg :: _) => CatalogError msg
          | Some [] => IndexError
          | None => KeyError "feed"
          end
          (with_catalogue rest (requests w ++ [mkParams ShortName t]) w).
Proof.
  intros Hp Hf. cbn [granule_pages]. unfold bind, get_results.
  rewrite Hp, Hf. now destruct (errors r) as [[| m ms] |].
Qed.

Lemma granule_pages_fails (full_pages : list (list Entry)) :
  forall fuel ShortName t ts acc w r rest,
    pending w = map feed_page full_pages ++ r :: rest ->
    Forall (fun p => length p = page_size) full_pages ->
    feed r = None ->
    (length full_pages < fuel)%nat ->
    granule_pages fuel ShortName t ts acc w
    = Raise match errors r with
            | Some (msg :: _) => CatalogError msg
            | Some [] => IndexError
            | None => KeyError "feed"
            end
            (with_catalogue rest
               (requests w ++ map (mkParams ShortName) (temporals t full_pages)) w).
Proof.
  induction full_pages as [| page pages IH];
    intros fuel ShortName t ts acc w r rest Hp Hfull Hr Hfuel.
  - destruct fuel as [| fuel]; [inversion Hfuel |].
    now apply granule_pages_no_feed.
  - destruct fuel as [| fuel]; [inversion Hfuel |].
    inversion Hfull as [| ? ? Hpage Hpages]; subst.
    rewrite (granule_pages_full _ _ _ _ _ _ _ _ Hp Hpage).
    rewrite (IH fuel ShortName _ _ _ _ r rest); auto.
    + cbn [temporals map with_catalogue requests pending home dirs
             files free_bytes store s3_calls].
      now rewrite <- app_assoc.
    + simpl in Hfuel. lia.
Qed.

(** X6: an error payload aborts the query at whatever page it comes.  After
    any number of full pages, an answer with an ['errors'] list and no
    ['feed'] makes [get_granules] raise the first message of the list, and an
    answer with neither key makes it raise [KeyError('feed')]; one request
    was sent per answer and what the earlier pages had given is lost. *)
Theorem catalogue_error_aborts_query
    (fuel : nat) (StartDate ShortName : string) (params : Params)
    (SingleDay_flag : bool) (full_pages : list (list Entry)) (r : Response)
    (rest : list Response) (w : World) :
  pending w = map feed_page full_pages ++ r :: rest ->
  Forall (fun p => length p = page_size) full_pages ->
  feed r = None ->
  (length full_pages < fuel)%nat ->
  let w1 :=
    with_catalogue rest
      (requests w ++ map (mkParams (ShortName_of params))
                         (temporals (temporal params) full_pages)) w in
  (forall msg more,
     errors r = Some (msg :: more) ->
     get_granules fuel StartDate params ShortName SingleDay_flag w
     = Raise (CatalogError msg) w1)
  /\ (errors r = None ->
      get_granules fuel StartDate params ShortName SingleDay_flag w
      = Raise (KeyError "feed") w1).
Proof.
  intros Hp Hfull Hr Hfuel w1.
  pose proof (granule_pages_fails full_pages fuel (ShortName_of params)
                (temporal params) [] [] w r rest Hp Hfull Hr Hfuel) as Hrun.
  split.
  - intros msg more He. rewrite He in Hrun. unfold get_granules.
    now rewrite (bind_Raise _ _ _ _ _ Hrun).
  - intros He. rewrite He in Hrun. unfold get_granules.
    now rewrite (bind_Raise _ _ _ _ _ Hrun).
Qed.

Lemma catalogue_error_aborts_query_witness :
  exists w1,
    get_granules 1 "1992-01" (mkParams "ECCO_L4_SSH_05DEG_MONTHLY_V4R4" "1992-01,1992-02")
      "ECCO_L4_SSH_05DEG_MONTHLY_V4R4" false
      (Scenario.fresh 0 [mkResponse None (Some ["Collection not found"; "second"])])
    = Raise (CatalogError "Collection not found") w1.
Proof.
  eexists.
  apply (proj1 (catalogue_error_aborts_query 1 "1992-01"
                  "ECCO_L4_SSH_05DEG_MONTHLY_V4R4"
                  (mkParams "ECCO_L4_SSH_05DEG_MONTHLY_V4R4" "1992-01,1992-02")
                  false [] (mkResponse None (Some ["Collection not found"; "second"]))
                  [] (Scenario.fresh 0 [mkResponse None
                                          (Some ["Collection not found"; "second"])])
                  eq_refl (Forall_nil _) eq_refl (le_n 1))
               "Collection not found" ["second"] eq_refl).
Defined.

Lemma drop_iso_date (d : Z) (s : string) :
  Str.drop 10 (Date.iso_date d ++ s) = s.
Proof.
  unfold Date.iso_date. destruct (Date.civil_from_days d) as [[y m] dd].
  reflexivity.
Qed.

Lemma datable_tail r rest : datable (r :: rest) -> datable rest.
Proof. intros H. now inversion H. Qed.

(** The requests one run of the loop sends. *)
Lemma granule_pages_requests fuel :
  forall ShortName t ts acc w,
    datable (pending w) ->
    match granule_pages fuel ShortName t ts acc w with
    | Return _ w1 | Raise _ w1 =>
        exists new,
          sent_between w w1 new /\ new <> []
          /\ Forall (fun p => ShortName_of p = ShortName
                              /\ Str.drop 10 (temporal p) = Str.drop 10 t) new
    | OutOfFuel => True
    end.
Proof.
  induction fuel as [| fuel IH]; intros ShortName t ts acc w Hdat; [exact I |].
  cbn [granule_pages]. unfold bind, get_results, sent_between.
  assert (Hone : forall rest,
             exists new,
               requests (with_catalogue rest
                           (requests w ++ [mkParams ShortName t]) w)
               = requests w ++ new /\ new <> []
               /\ Forall (fun p => ShortName_of p = ShortName
                                   /\ Str.drop 10 (temporal p) = Str.drop 10 t) new).
  { intros rest. exists [mkParams ShortName t].
    split; [reflexivity |]. split; [discriminate |]. now repeat constructor. }
  destruct (pending w) as [| r rest] eqn:Hp; [apply Hone |].
  destruct (feed r) as [entries |].
  - destruct (length entries <? page_size)%nat; [apply Hone |].
    destruct (rev entries) as [| e es]; [apply Hone |].
    specialize (IH ShortName (next_temporal e t)
                   (ts ++ map time_start entries)
                   (acc ++ flat_map s3_link entries)
                   (with_catalogue rest (requests w ++ [mkParams ShortName t]) w)
                   (datable_tail _ _ Hdat)).
    destruct (granule_pages fuel _ _ _ _ _) as [v w1 | ex w1 |]; [| | exact I];
      destruct IH as (new & Hnew & _ & Hall);
      exists (mkParams ShortName t :: new);
      (split; [unfold sent_between in Hnew; rewrite Hnew; simpl;
               now rewrite <- app_assoc |]);
      (split; [discriminate |]);
      (constructor; [now split |]);
      (eapply Forall_impl; [| exact Hall]);
      intros p [Hn Ht]; (split; [exact Hn |]);
      rewrite Ht; unfold next_temporal; apply drop_iso_date.
  - destruct (errors r) as [[| m ms] |]; apply Hone.
Qed.

(** X7: pagination changes nothing of the search but the lower bound of the
    temporal filter.  Whatever the outcome of [get_granules], it has sent at
    least one request, and every request it has sent names the dataset of
    [params] and has the temporal filter of [params] from its eleventh
    character on (the end of the range), as long as the entries end on days
    that print as ten characters. *)
Theorem pagination_keeps_the_end_of_the_range
    (fuel : nat) (StartDate ShortName : string) (params : Params)
    (SingleDay_flag : bool) (w : World) :
  datable (pending w) ->
  match get_granules fuel StartDate params ShortName SingleDay_flag w with
  | Return _ w1 | Raise _ w1 =>
      exists new,
        sent_between w w1 new /\ new <> []
        /\ Forall (fun p => ShortName_of p = ShortName_of params
                            /\ Str.drop 10 (temporal p)
                               = Str.drop 10 (temporal params)) new
  | OutOfFuel => True
  end.
Proof.
  intros Hdat. unfold get_granules, bind.
  pose proof (granule_pages_requests fuel (ShortName_of params) (temporal params)
                [] [] w Hdat) as H.
  destruct (granule_pages fuel _ _ _ _ w) as [[ts refs] w1 | e w1 |];
    [| exact H | exact I].
  destruct (is_aggregate ShortName); [| exact H].
  destruct (SingleDay_flag && (1 <? length refs)%nat); [| exact H].
  destruct (Date.parse_day StartDate); [| exact H].
  destruct (argmin _); exact H.
Qed.

Lemma pagination_keeps_the_end_of_the_range_witness :
  exists w1 new,
    get_granules 1 "1992-01"
      (mkParams "ECCO_L4_SSH_05DEG_MONTHLY_V4R4" "1992-01-01,1992-01-31")
      "ECCO_L4_SSH_05DEG_MONTHLY_V4R4" false Scenario.one_month
    = Return ["s3://podaac/SSH_MONTHLY_1992-01.nc"] w1
    /\ sent_between Scenario.one_month w1 new /\ new <> [].
Proof.
  assert (Hdat : datable (pending Scenario.one_month)).
  { repeat constructor. intros entries H. inversion H; subst.
    repeat constructor; vm_compute; discriminate. }
  pose proof (pagination_keeps_the_end_of_the_range 1 "1992-01"
                "ECCO_L4_SSH_05DEG_MONTHLY_V4R4"
                (mkParams "ECCO_L4_SSH_05DEG_MONTHLY_V4R4" "1992-01-01,1992-01-31")
                false Scenario.one_month Hdat) as H.
  remember (get_granules 1 "1992-01"
              (mkParams "ECCO_L4_SSH_05DEG_MONTHLY_V4R4" "1992-01-01,1992-01-31")
              "ECCO_L4_SSH_05DEG_MONTHLY_V4R4" false Scenario.one_month)
    as out eqn:E.
  vm_compute in E. subst out. destruct H as (new & Hs & Hn & _).
  eexists _, new. split; [vm_compute; reflexivity |]. split; assumption.
Defined.

(** The first index of the least element: nothing before it is as small. *)
Lemma argmin_from_first (r : list Z) :
  forall pre best_i best,
    (best_i < length pre)%nat ->
    nth best_i pre 0%Z = best ->
    Forall (fun y => (best <= y)%Z) pre ->
    (forall j, (j < best_i)%nat -> (best < nth j pre 0)%Z) ->
    let k := argmin_from r (length pre) best_i best in
    forall j, (j < k)%nat -> (nth k (pre ++ r) 0 < nth j (pre ++ r) 0)%Z.
Proof.
  induction r as [| x r IH]; intros pre best_i best Hi Hnth Hall Hfirst;
    cbn [argmin_from].
  - rewrite app_nil_r. intros j Hj. rewrite Hnth. now apply Hfirst.
  - replace (pre ++ x :: r) with ((pre ++ [x]) ++ r) by now rewrite <- app_assoc.
    replace (S (length pre)) with (length (pre ++ [x]))
      by (rewrite length_app; simpl; lia).
    destruct (x <? best)%Z eqn:Hlt.
    + apply Z.ltb_lt in Hlt. apply IH.
      * rewrite length_app. simpl. lia.
      * rewrite app_nth2, Nat.sub_diag by lia. reflexivity.
      * apply Forall_app. split; [| repeat constructor; lia].
        eapply Forall_impl; [| exact Hall]. simpl. intros; lia.
      * intros j Hj. rewrite app_nth1 by exact Hj.
        rewrite Forall_forall in Hall.
        specialize (Hall (nth j pre 0%Z) (nth_In _ _ Hj)). lia.
    + apply Z.ltb_ge in Hlt. apply IH.
      * rewrite length_app. simpl. lia.
      * now rewrite app_nth1.
      * apply Forall_app. split; [exact Hall | repeat constructor; lia].
      * intros j Hj. rewrite app_nth1 by lia. now apply Hfirst.
Qed.

Lemma argmin_first (l : list Z) (k : nat) :
  argmin l = Some k ->
  forall j, (j < k)%nat -> (nth k l 0 < nth j l 0)%Z.
Proof.
  destruct l as [| x r]; [discriminate |].
  intros H. inversion H; subst.
  apply (argmin_from_first r [x] 0%nat x); simpl; auto.
  - repeat constructor. lia.
  - intros j Hj. inversion Hj.
Qed.

Lemma nth_distances (d : Z) (es : list Entry) (k : nat) (dflt : Entry) :
  (k < length es)%nat ->
  nth k (map (fun t => Z.abs (t - Date.ns_of_day d)) (map time_start es)) 0%Z
  = distance d (nth k es dflt).
Proof.
  intros Hk. rewrite nth_indep with (d' := distance d dflt)
    by (rewrite !length_map; exact Hk).
  unfold distance.
  rewrite (map_nth (fun t => Z.abs (t - Date.ns_of_day d))
                   (map time_start es) (time_start dflt)).
  now rewrite (map_nth time_start).
Qed.

(** X8: on equal distances the single-day collapse keeps the earliest entry.
    For a monthly or daily dataset queried for one day, when the catalogue
    returned more than one entry and each has a direct S3 link, the
    reference returned is that of the entry at some position [k], no entry is
    nearer the start date than that one, and every entry before it is
    strictly farther. *)
Theorem single_day_ties_go_to_the_first
    (fuel : nat) (StartDate ShortName : string) (params : Params)
    (es : list Entry) (d : Z) (w w1 : World) :
  is_aggregate ShortName = true ->
  granule_pages fuel (ShortName_of params) (temporal params) [] [] w
  = Return (map time_start es, flat_map s3_link es) w1 ->
  Forall (fun e => s3_link e <> []) es ->
  (1 < length es)%nat ->
  Date.parse_day StartDate = Some d ->
  exists k,
    get_granules fuel StartDate params ShortName true w
    = Return (s3_link (nth k es (mkEntry 0 0 []))) w1
    /\ (k < length es)%nat
    /\ (forall j, (j < length es)%nat ->
                  (distance d (nth k es (mkEntry 0 0 []))
                   <= distance d (nth j es (mkEntry 0 0 [])))%Z)
    /\ (forall j, (j < k)%nat ->
                  (distance d (nth k es (mkEntry 0 0 []))
                   < distance d (nth j es (mkEntry 0 0 [])))%Z).
Proof.
  intros Hagg Hrun Hl Hn Hd.
  unfold get_granules. rewrite (bind_Return _ _ _ _ _ Hrun).
  rewrite Hagg, (linked_count _ Hl). cbn [andb].
  apply Nat.ltb_lt in Hn as Hnb. rewrite Hnb, Hd.
  destruct (argmin _) as [k |] eqn:Hk.
  - pose proof (argmin_first _ _ Hk) as Hfirst.
    apply argmin_least in Hk as (Hklt & Hmin).
    rewrite !length_map in Hklt.
    exists k. split; [| split; [exact Hklt | split]].
    + unfold ret. now rewrite (slice1_linked es Hl k (mkEntry 0 0 []) Hklt).
    + intros j Hj. rewrite Forall_forall in Hmin.
      rewrite <- (nth_distances d es k _ Hklt), <- (nth_distances d es j _ Hj).
      apply Hmin. apply nth_In. now rewrite !length_map.
    + intros j Hj.
      rewrite <- (nth_distances d es k _ Hklt).
      rewrite <- (nth_distances d es j (mkEntry 0 0 [])) by lia.
      now apply Hfirst.
  - destruct es; [inversion Hn | discriminate Hk].
Qed.

Lemma single_day_ties_go_to_the_first_witness :
  exists k w1,
    get_granules 1 "1992-02-01"
      (mkParams "ECCO_L4_SSH_05DEG_DAILY_V4R4" "1992-02-01,1992-02-01")
      "ECCO_L4_SSH_05DEG_DAILY_V4R4" true
      (Scenario.fresh 0 [feed_page [Scenario.daily_entry 30; Scenario.daily_entry 32]])
    = Return (s3_link (nth k [Scenario.daily_entry 30; Scenario.daily_entry 32]
                           (mkEntry 0 0 []))) w1
    /\ k = 0%nat.
Proof.
  edestruct (single_day_ties_go_to_the_first 1 "1992-02-01"
               "ECCO_L4_SSH_05DEG_DAILY_V4R4"
               (mkParams "ECCO_L4_SSH_05DEG_DAILY_V4R4" "1992-02-01,1992-02-01")
               [Scenario.daily_entry 30; Scenario.daily_entry 32] 8066
               (Scenario.fresh 0 [feed_page [Scenario.daily_entry 30;
                                             Scenario.daily_entry 32]]))
    as (k & Hrun & Hk & _ & Hfirst).
  - reflexivity.
  - reflexivity.
  - repeat constructor; discriminate.
  - simpl. lia.
  - reflexivity.
  - exists k. eexists. split; [exact Hrun |].
    destruct k as [| [| k]]; [reflexivity | | simpl in Hk; lia].
    specialize (Hfirst 0%nat (Nat.lt_0_succ 0)). vm_compute in Hfirst.
    discriminate Hfirst.
Defined.

(** ** What the query and the remote opening leave alone *)

Lemma only_catalogue_refl w : only_catalogue_between w w.
Proof. unfold only_catalogue_between. now destruct w. Qed.

Lemma granule_pages_frame fuel :
  forall ShortName t ts acc w,
    match granule_pages fuel ShortName t ts acc w with
    | Return _ w1 | Raise _ w1 => only_catalogue_between w w1
    | OutOfFuel => True
    end.
Proof.
  induction fuel as [| fuel IH]; intros ShortName t ts acc w; [exact I |].
  cbn [granule_pages]. unfold bind, get_results.
  destruct (pending w) as [| r rest]; [reflexivity |].
  destruct (feed r) as [entries |].
  - destruct (length entries <? page_size)%nat; [reflexivity |].
    destruct (rev entries) as [| e es]; [reflexivity |].
    specialize (IH ShortName (next_temporal e t)
                   (ts ++ map time_start entries)
                   (acc ++ flat_map s3_link entries)
                   (with_catalogue rest (requests w ++ [mkParams ShortName t]) w)).
    destruct (granule_pages fuel _ _ _ _ _) as [v w1 | ex w1 |]; [| | exact I];
      unfold only_catalogue_between in *; rewrite IH at 1; reflexivity.
  - destruct (errors r) as [[| m ms] |]; reflexivity.
Qed.

Lemma get_granules_frame fuel StartDate params ShortName flag w :
  match get_granules fuel StartDate params ShortName flag w with
  | Return _ w1 | Raise _ w1 => only_catalogue_between w w1
  | OutOfFuel => True
  end.
Proof.
  unfold get_granules, bind.
  pose proof (granule_pages_frame fuel (ShortName_of params) (temporal params)
                [] [] w) as H.
  destruct (granule_pages fuel _ _ _ _ w) as [[ts refs] w1 | e w1 |];
    [| exact H | exact I].
  destruct (is_aggregate ShortName); [| exact H].
  destruct (flag && (1 <? length refs)%nat); [| exact H].
  destruct (Date.parse_day StartDate); [| exact H].
  destruct (argmin _); exact H.
Qed.

Lemma prune_snapshots_frame (todo : list string) :
  forall copy w,
    match prune_snapshots todo copy w with
    | Return _ w1 | Raise _ w1 => w1 = w
    | OutOfFuel => True
    end.
Proof.
  induction todo as [| x rest IH]; intros copy w; simpl; [reflexivity |].
  destruct (snapshot_date x) as [date |]; [| reflexivity].
  destruct (not_first_of_month date); [| apply IH].
  destruct (list_remove x copy); [apply IH | reflexivity].
Qed.

Section QueryFrame.

Variable date_adjustment : string -> string -> string -> string * string * bool.

(** The query talks to the catalogue and to nothing else. *)
Lemma query_frame fuel ShortName StartDate EndDate interval w :
  match ecco_podaac_s3_query date_adjustment fuel ShortName StartDate EndDate
                             interval w with
  | Return _ w1 | Raise _ w1 => only_catalogue_between w w1
  | OutOfFuel => True
  end.
Proof.
  unfold ecco_podaac_s3_query.
  destruct (date_adjustment ShortName StartDate EndDate) as [[S' E'] flag].
  unfold bind at 1. unfold setup_earthdata_login_auth, ret at 1. unfold bind.
  pose proof (get_granules_frame fuel S' (mkParams ShortName (S' ++ "," ++ E'))
                ShortName flag w) as H.
  destruct (get_granules fuel _ _ _ _ w) as [l w1 | e w1 |]; [| exact H | exact I].
  destruct (Str.contains "SNAPSHOT" ShortName); [| exact H].
  destruct (interval =? "monthly"); [| exact H].
  pose proof (prune_snapshots_frame l l w1) as Hp.
  destruct (prune_snapshots l l w1) as [l' w2 | e w2 |]; [| | exact I];
    now subst w2.
Qed.

End QueryFrame.

(** Opening a list of references: all of them, in order, or the error of the
    first that cannot be read. *)
Lemma open_each s3 (urls : list string) :
  forall w,
    Forall (fun u => lookup_object s3 u <> None) urls ->
    for_each (s3_open s3) urls w
    = Return (map RemoteFile urls)
             (with_s3_calls (s3_calls w ++ map OpenFile urls) w).
Proof.
  induction urls as [| u urls IH]; intros w Hall; simpl.
  - rewrite app_nil_r. now destruct w.
  - inversion Hall as [| ? ? Hu Hrest]; subst.
    unfold bind at 1. unfold s3_open at 1, bind, log_call, ret.
    destruct (lookup_object s3 u); [| congruence].
    rewrite (IH _ Hrest). cbn [with_s3_calls s3_calls home dirs files free_bytes
                                store pending requests].
    now rewrite <- app_assoc.
Qed.

Lemma open_each_fails s3 (bad : string) (post : list string) :
  forall (pre : list string) w,
    Forall (fun u => lookup_object s3 u <> None) pre ->
    lookup_object s3 bad = None ->
    for_each (s3_open s3) (pre ++ bad :: post) w
    = Raise (FileNotFoundError bad)
            (with_s3_calls (s3_calls w ++ map OpenFile (pre ++ [bad])) w).
Proof.
  induction pre as [| u pre IH]; intros w Hall Hbad; simpl.
  - unfold bind at 1. unfold s3_open at 1, bind, log_call, raise.
    now rewrite Hbad.
  - inversion Hall as [| ? ? Hu Hrest]; subst.
    unfold bind at 1. unfold s3_open at 1, bind, log_call, ret.
    destruct (lookup_object s3 u); [| congruence].
    rewrite (IH _ Hrest Hbad).
    cbn [with_s3_calls s3_calls home dirs files free_bytes store pending requests].
    now rewrite <- app_assoc.
Qed.

Lemma open_each_returns s3 (urls : list string) w r w1 :
  for_each (s3_open s3) urls w = Return r w1 ->
  r = map RemoteFile urls
  /\ w1 = with_s3_calls (s3_calls w ++ map OpenFile urls) w.
Proof.
  revert w r w1. induction urls as [| u urls IH]; intros w r w1 H; simpl in H.
  - inversion H; subst. split; [reflexivity |].
    rewrite app_nil_r. now destruct w1.
  - apply bind_inv in H as (i & wa & Hi & H).
    apply bind_inv in H as (r' & wb & Hr & H). inversion H; subst.
    apply IH in Hr as (-> & ->).
    unfold s3_open, bind, log_call, ret, raise in Hi.
    destruct (lookup_object s3 u); inversion Hi; subst.
    split; [reflexivity |].
    cbn [with_s3_calls s3_calls home dirs files free_bytes store pending requests].
    now rewrite <- app_assoc.
Qed.

Section OpenFrame.

Variable date_adjustment : string -> string -> string -> string * string * bool.

(** X9: [ecco_podaac_s3_open] opens what the query gives, in its order.
    When it returns, the handle was used to open the references of the
    query one by one in their order and for nothing else, and the result is
    their list, collapsed. *)
Theorem open_opens_the_query_in_order
    (fuel : nat) (ShortName StartDate EndDate interval : string)
    (r : retrieval) (w w1 : World) :
  ecco_podaac_s3_open date_adjustment fuel ShortName StartDate EndDate interval w
  = Return r w1 ->
  exists l wq,
    ecco_podaac_s3_query date_adjustment fuel ShortName StartDate EndDate
                         "monthly" w = Return l wq
    /\ items r = map RemoteFile l
    /\ s3_calls w1 = s3_calls w ++ map OpenFile l.
Proof.
  intros H. unfold ecco_podaac_s3_open in H.
  apply bind_inv in H as (l & wq & Hq & H).
  apply bind_inv in H as (s3 & wa & Hs & H).
  apply bind_inv in H as (open_files & wb & Ho & H).
  inversion H; subst. inversion Hs; subst.
  apply open_each_returns in Ho as (-> & ->).
  pose proof (query_frame date_adjustment fuel ShortName StartDate EndDate
                "monthly" w) as Hf.
  rewrite Hq in Hf. unfold only_catalogue_between in Hf.
  exists l, wa. split; [exact Hq |]. rewrite items_collapse.
  split; [reflexivity |]. rewrite Hf. reflexivity.
Qed.

(** X10: opening is all or nothing.  If the query gives references of
    which [bad] is the first that cannot be read, [ecco_podaac_s3_open]
    raises the error of [bad] and returns no handle at all; the handle was
    used for the references up to [bad] and for none after it. *)
Theorem open_fails_as_a_whole
    (fuel : nat) (ShortName StartDate EndDate interval bad : string)
    (pre post : list string) (w wq : World) :
  ecco_podaac_s3_query date_adjustment fuel ShortName StartDate EndDate
                       "monthly" w = Return (pre ++ bad :: post) wq ->
  Forall (fun u => lookup_object (store w) u <> None) pre ->
  lookup_object (store w) bad = None ->
  ecco_podaac_s3_open date_adjustment fuel ShortName StartDate EndDate interval w
  = Raise (FileNotFoundError bad)
          (with_s3_calls (s3_calls w ++ map OpenFile (pre ++ [bad])) wq).
Proof.
  intros Hq Hpre Hbad. unfold ecco_podaac_s3_open.
  rewrite (bind_Return _ _ _ _ _ Hq).
  pose proof (query_frame date_adjustment fuel ShortName StartDate EndDate
                "monthly" w) as Hf.
  rewrite Hq in Hf. unfold only_catalogue_between in Hf.
  assert (Hstore : store wq = store w) by (rewrite Hf; reflexivity).
  assert (Hcalls : s3_calls wq = s3_calls w) by (rewrite Hf; reflexivity).
  unfold bind at 1. unfold init_S3FileSystem. rewrite Hstore.
  unfold bind. rewrite (open_each_fails (store w) bad post pre wq Hpre Hbad).
  now rewrite Hcalls.
Qed.

End OpenFrame.

Lemma open_opens_the_query_in_order_witness :
  exists w1,
    ecco_podaac_s3_open Scenario.dates_as_given 1 "ECCO_L4_SSH_05DEG_MONTHLY_V4R4"
      "1992-01" "1992-01" "monthly" Scenario.one_month
    = Return (One (RemoteFile "s3://podaac/SSH_MONTHLY_1992-01.nc")) w1
    /\ s3_calls w1 = [OpenFile "s3://podaac/SSH_MONTHLY_1992-01.nc"].
Proof.
  destruct (ecco_podaac_s3_open Scenario.dates_as_given 1
              "ECCO_L4_SSH_05DEG_MONTHLY_V4R4" "1992-01" "1992-01" "monthly"
              Scenario.one_month) as [r w1 | e w1 |] eqn:E;
    pose proof E as E0; vm_compute in E0; inversion E0; subst.
  destruct (open_opens_the_query_in_order _ _ _ _ _ _ _ _ _ E)
    as (l & wq & Hq & Hitems & Hcalls).
  vm_compute in Hq. inversion Hq; subst.
  eexists. split; [reflexivity | exact Hcalls].
Defined.

Lemma open_fails_as_a_whole_witness :
  exists w1,
    ecco_podaac_s3_open Scenario.dates_as_given 1 "ECCO_L4_SSH_05DEG_DAILY_V4R4"
      "1992-01-02" "1992-01-03" "monthly"
      (Scenario.fresh 0 [feed_page [Scenario.daily_entry 0; Scenario.daily_entry 1]])
    = Raise (FileNotFoundError "s3://podaac/SSH_DAILY_1992-01-02.nc") w1.
Proof.
  eexists.
  apply (open_fails_as_a_whole Scenario.dates_as_given 1
           "ECCO_L4_SSH_05DEG_DAILY_V4R4" "1992-01-02" "1992-01-03" "monthly"
           "s3://podaac/SSH_DAILY_1992-01-02.nc"
           ["s3://podaac/SSH_DAILY_1992-01-01.nc"] []
           (Scenario.fresh 0 [feed_page [Scenario.daily_entry 0;
                                         Scenario.daily_entry 1]])).
  - vm_compute. reflexivity.
  - repeat constructor. discriminate.
  - reflexivity.
Defined.

(** ** Measuring and dispatching *)

Lemma missing_files_calls w c dir l :
  missing_files (with_s3_calls c w) dir l = missing_files w dir l.
Proof. reflexivity. Qed.

(** X11: the size of a dataset counts the files that are not in the download
    directory, and only those are looked up: when each of them can be read,
    [dataset_size] returns the sum of their sizes and has asked the handle
    for the [info] of each missing file, in order, and for nothing else. *)
Theorem dataset_size_counts_missing_files (s3 : S3FileSystem)
    (download_dir : string) (s3_files_list : list string) (w : World) :
  Forall (fun f => lookup_object s3 f <> None)
         (missing_files w download_dir s3_files_list) ->
  dataset_size s3 download_dir s3_files_list 0 w
  = Return (sum_sizes (map (size_of s3) (missing_files w download_dir s3_files_list)))
           (with_s3_calls
              (s3_calls w ++ map GetInfo (missing_files w download_dir s3_files_list))
              w).
Proof.
  assert (Hgen : forall l acc w,
             Forall (fun f => lookup_object s3 f <> None)
                    (missing_files w download_dir l) ->
             dataset_size s3 download_dir l acc w
             = Return (acc + sum_sizes (map (size_of s3)
                                            (missing_files w download_dir l)))%Z
                      (with_s3_calls
                         (s3_calls w ++ map GetInfo (missing_files w download_dir l))
                         w)).
  { clear. induction l as [| f l IH]; intros acc w Hall.
    - simpl. rewrite app_nil_r, Z.add_0_r. now destruct w.
    - cbn [dataset_size]. unfold missing_files in *. cbn [filter] in *.
      fold (target_file download_dir f) in *.
      destruct (isfile w (target_file download_dir f)); cbn [negb] in *.
      + now apply IH.
      + inversion Hall as [| ? ? Hf Hrest]; subst.
        unfold bind at 1. unfold s3_info_size, bind, log_call, ret, size_of.
        cbn [map sum_sizes fold_right].
        unfold size_of.
        destruct (lookup_object s3 f) as [size |]; [| congruence].
        rewrite (IH (acc + size)%Z
                    (with_s3_calls (s3_calls w ++ [GetInfo f]) w) Hrest).
        cbn [with_s3_calls s3_calls home dirs files free_bytes store pending
               requests isfile].
        rewrite <- app_assoc, Z.add_assoc. reflexivity. }
  intros Hall. now rewrite (Hgen _ 0%Z w Hall).
Qed.

Lemma dataset_size_counts_missing_files_witness :
  dataset_size Scenario.bucket "/data/ECCO_L4_SSH_05DEG_MONTHLY_V4R4"
    ["s3://podaac/SSH_MONTHLY_1992-01.nc"; "s3://podaac/SSH_MONTHLY_1992-02.nc"] 0
    Scenario.full_disk
  = Return (20 * Scenario.GiB)%Z
           (with_s3_calls [GetInfo "s3://podaac/SSH_MONTHLY_1992-02.nc"]
                          Scenario.full_disk).
Proof.
  apply (dataset_size_counts_missing_files Scenario.bucket
           "/data/ECCO_L4_SSH_05DEG_MONTHLY_V4R4"
           ["s3://podaac/SSH_MONTHLY_1992-01.nc"; "s3://podaac/SSH_MONTHLY_1992-02.nc"]
           Scenario.full_disk).
  repeat constructor. discriminate.
Defined.

(** The keys of a dict after an assignment. *)
Lemma dict_set_keys_eq k v d :
  map fst (dict_set k v d)
  = if Str.mem k (map fst d) then map fst d else map fst d ++ [k].
Proof.
  induction d as [| [k' v'] d IH]; simpl; [reflexivity |].
  unfold Str.mem in *. simpl.
  destruct (k =? k') eqn:Hk; simpl.
  - apply String.eqb_eq in Hk. now subst.
  - rewrite IH. now destruct (existsb (String.eqb k) (map fst d)).
Qed.

Lemma mem_In x l : Str.mem x l = true <-> In x l.
Proof.
  unfold Str.mem. rewrite existsb_exists. split.
  - intros (y & Hy & He). apply String.eqb_eq in He. now subst.
  - intros H. exists x. split; [exact H | apply String.eqb_refl].
Qed.

Lemma dict_set_unique k v d :
  NoDup (map fst d) ->
  NoDup (map fst (dict_set k v d))
  /\ forall name, In name (map fst (dict_set k v d)) <-> name = k \/ In name (map fst d).
Proof.
  intros Hnd. rewrite dict_set_keys_eq.
  destruct (Str.mem k (map fst d)) eqn:Hm.
  - apply mem_In in Hm. split; [exact Hnd |].
    intros name. split; [now right | intros [-> | H]; assumption].
  - split.
    + apply NoDup_app; [exact Hnd | repeat constructor; intros [] |].
      intros x Hx [<- | []]. apply mem_In in Hx. congruence.
    + intros name. rewrite in_app_iff. simpl. intuition.
Qed.

Section DictKeys.

Variable date_adjustment : string -> string -> string -> string * string * bool.
Variable executor_map :
  S3FileSystem -> list string -> string -> nat -> bool -> M (list string).

Lemma download_all_unique s3 root n force :
  forall todo d w d' w1,
    download_all executor_map s3 root n force todo d w = Return d' w1 ->
    NoDup (map fst d) ->
    NoDup (map fst d')
    /\ forall name, In name (map fst d') <-> In name (map fst todo) \/ In name (map fst d).
Proof.
  induction todo as [| [k fs] todo IH]; intros d w d' w1 H Hnd; simpl in H.
  - inversion H; subst. split; [exact Hnd | intros name; simpl; intuition].
  - apply bind_inv in H as (v & wa & _ & H).
    destruct v as [l |]; [| discriminate].
    destruct (dict_set_unique k (collapse (map LocalPath l)) d Hnd) as (Hnd' & Hk).
    destruct (IH _ _ _ _ H Hnd') as (Hu & Hin).
    split; [exact Hu |]. intros name. rewrite Hin, Hk. simpl. intuition.
Qed.

Lemma open_all_unique s3 :
  forall todo d w d' w1,
    open_all s3 todo d w = Return d' w1 ->
    NoDup (map fst d) ->
    NoDup (map fst d')
    /\ forall name, In name (map fst d') <-> In name (map fst todo) \/ In name (map fst d).
Proof.
  induction todo as [| [k fs] todo IH]; intros d w d' w1 H Hnd; simpl in H.
  - inversion H; subst. split; [exact Hnd | intros name; simpl; intuition].
  - apply bind_inv in H as (r & wa & _ & H).
    destruct (dict_set_unique k (collapse r) d Hnd) as (Hnd' & Hk).
    destruct (IH _ _ _ _ H Hnd') as (Hu & Hin).
    split; [exact Hu |]. intros name. rewrite Hin, Hk. simpl. intuition.
Qed.

(** X12: the dict [ecco_podaac_s3_get_diskaware] returns has exactly the
    names asked for as its keys, each of them once, also when a name is
    given more than once in [ShortNames]. *)
Theorem dispatch_keys_are_the_names
    (fuel : nat) (ShortNames : list string) (StartDate EndDate : string)
    (snapshot_interval download_root_dir : option string) (max_avail_frac : Q)
    (n_workers : nat) (force_redownload : bool)
    (d : list (string * retrieval)) (w w1 : World) :
  ecco_podaac_s3_get_diskaware date_adjustment executor_map fuel ShortNames
    StartDate EndDate snapshot_interval download_root_dir max_avail_frac
    n_workers force_redownload w = Return (Retrieved d) w1 ->
  NoDup (map fst d)
  /\ forall name, In name (map fst d) <-> In name ShortNames.
Proof.
  intros H. unfold ecco_podaac_s3_get_diskaware in H.
  apply bind_inv in H as (s3 & wa & _ & H).
  apply bind_inv in H as (root & wb & _ & H).
  apply bind_inv in H as ([sizes lists] & wc & Hs & H).
  apply bind_inv in H as (probe & wd & _ & H).
  pose proof (combine_keys ShortNames lists
                (survey_lengths _ _ _ _ _ _ _ _ _ _ _ _ Hs)) as Hkeys.
  destruct probe as [avail |]; [| discriminate].
  destruct (within_budget _ _ _);
    apply bind_inv in H as (d' & we & Hd & H); inversion H; subst.
  - destruct (download_all_unique _ _ _ _ _ _ _ _ _ Hd (NoDup_nil _)) as (Hu & Hin).
    split; [exact Hu |]. intros name. rewrite Hin, Hkeys. simpl. intuition.
  - destruct (open_all_unique _ _ _ _ _ _ Hd (NoDup_nil _)) as (Hu & Hin).
    split; [exact Hu |]. intros name. rewrite Hin, Hkeys. simpl. intuition.
Qed.

End DictKeys.

Lemma dispatch_keys_are_the_names_witness :
  exists d w1,
    ecco_podaac_s3_get_diskaware Scenario.dates_as_given Scenario.orderly_pool 2
      ["ECCO_L4_SSH_05DEG_MONTHLY_V4R4"; "ECCO_L4_SSH_05DEG_MONTHLY_V4R4"]
      "1992-01" "1992-02" None (Some "/data") (1 # 2) 6 false Scenario.forty_GiB
    = Return (Retrieved d) w1
    /\ map fst d = ["ECCO_L4_SSH_05DEG_MONTHLY_V4R4"].
Proof.
  destruct (ecco_podaac_s3_get_diskaware Scenario.dates_as_given
              Scenario.orderly_pool 2
              ["ECCO_L4_SSH_05DEG_MONTHLY_V4R4"; "ECCO_L4_SSH_05DEG_MONTHLY_V4R4"]
              "1992-01" "1992-02" None (Some "/data") (1 # 2) 6 false
              Scenario.forty_GiB) as [r w1 | e w1 |] eqn:E;
    pose proof E as E0; vm_compute in E0; inversion E0; subst.
  destruct (dispatch_keys_are_the_names _ _ _ _ _ _ _ _ _ _ _ _ _ _ E)
    as [Hnodup Hkeys].
  eexists _, _. split; [reflexivity |]. reflexivity.
Defined.

Lemma clamp_frac_le (f : Q) : clamp_frac f <= Float64.nine_tenths.
Proof. unfold clamp_frac. apply Q.le_min_r. Qed.

Section Budget.

Variable date_adjustment : string -> string -> string -> string * string * bool.
Variable executor_map :
  S3FileSystem -> list string -> string -> nat -> bool -> M (list string).

(** X13: whatever fraction the caller passes, nothing is downloaded onto a
    disk without free bytes, nor when the sizes take more than 0.9 of them.
    If the dict returned holds a local path anywhere, then the free bytes
    found are not zero and the float quotient of the float sum of the sizes
    measured by the free bytes is at most the float [0.9]. *)
Theorem download_needs_room
    (fuel : nat) (ShortNames : list string) (StartDate EndDate : string)
    (snapshot_interval download_root_dir : option string) (max_avail_frac : Q)
    (n_workers : nat) (force_redownload : bool)
    (w : World) (dataset_sizes : list Z) (s3_files_list_all : list (list string))
    (w1 : World) (avail_storage : Z) (w2 : World)
    (d : list (string * retrieval)) (w3 : World) (name path : string)
    (r : retrieval) :
  survey date_adjustment fuel (store w) ShortNames StartDate EndDate
         (interval_of snapshot_interval ShortNames)
         (root_of download_root_dir w) w
  = Return (dataset_sizes, s3_files_list_all) w1 ->
  probe_free_space fuel (root_of download_root_dir w) w1
  = Return (Available avail_storage) w2 ->
  ecco_podaac_s3_get_diskaware date_adjustment executor_map fuel ShortNames
    StartDate EndDate snapshot_interval download_root_dir max_avail_frac
    n_workers force_redownload w = Return (Retrieved d) w3 ->
  In (name, r) d -> In (LocalPath path) (items r) ->
  avail_storage <> 0%Z
  /\ Float64.div (Float64.sum (size_array dataset_sizes))
                 (Float64.of_int avail_storage)
     <= Float64.nine_tenths.
Proof.
  intros Hs Hp Hcall Hin Hitem.
  rewrite (diskaware_unfold date_adjustment executor_map fuel ShortNames
             StartDate EndDate snapshot_interval download_root_dir
             max_avail_frac n_workers force_redownload w _ _ _ _ _ Hs Hp)
    in Hcall.
  destruct (within_budget _ _ _) eqn:Hb.
  - unfold within_budget in Hb.
    destruct (avail_storage =? 0)%Z eqn:Hz; [discriminate |].
    apply Z.eqb_neq in Hz. split; [exact Hz |].
    apply Qle_bool_iff in Hb.
    eapply Qle_trans; [exact Hb | apply clamp_frac_le].
  - exfalso. apply bind_inv in Hcall as (d' & wa & Hd & Hr).
    inversion Hr; subst.
    pose proof (open_all_values (fun kv => Forall is_remote (items (snd kv)))
                  _ (fun _ l => remote_items l) _ _ _ _ _ Hd (Forall_nil _)) as Hall.
    rewrite Forall_forall in Hall. specialize (Hall _ Hin). simpl in Hall.
    rewrite Forall_forall in Hall. exact (Hall _ Hitem).
Qed.

End Budget.

Lemma download_needs_room_witness :
  (100 * Scenario.GiB)%Z <> 0%Z
  /\ Float64.div (Float64.sum (size_array [(20 * Scenario.GiB)%Z;
                                          (20 * Scenario.GiB)%Z]))
                 (Float64.of_int (100 * Scenario.GiB))
     <= Float64.nine_tenths.
Proof.
  eapply (download_needs_room Scenario.dates_as_given Scenario.orderly_pool 2
            ["ECCO_L4_SSH_05DEG_MONTHLY_V4R4";
             "ECCO_L4_SSH_LLC0090GRID_MONTHLY_V4R4"]
            "1992-01" "1992-02" None (Some "/data") (1 # 2) 6 false
            Scenario.forty_GiB [(20 * Scenario.GiB)%Z; (20 * Scenario.GiB)%Z]
            _ _ (100 * Scenario.GiB)%Z _ _ _
            "ECCO_L4_SSH_05DEG_MONTHLY_V4R4"
            "/data/ECCO_L4_SSH_05DEG_MONTHLY_V4R4/SSH_MONTHLY_1992-01.nc").
  - vm_compute. reflexivity.
  - vm_compute. reflexivity.
  - vm_compute. reflexivity.
  - left. reflexivity.
  - left. reflexivity.
Defined.

(** ** Where things are written *)

Lemma sequential_dirs s3 dir force urls :
  forall w,
    match download_sequentially s3 urls dir force w with
    | Return _ w1 | Raise _ w1 => dirs w1 = dirs w
    | OutOfFuel => True
    end.
Proof.
  induction urls as [| u urls IH]; intros w; [reflexivity |].
  rewrite sequential_cons.
  destruct (download_file s3 u dir force w) as [p wa | e wa |] eqn:Hp; [| | exact I].
  - destruct (download_file_returns _ _ _ _ _ _ _ Hp) as (_ & _ & Hd & _).
    specialize (IH wa).
    destruct (download_sequentially s3 urls dir force wa); try exact I; congruence.
  - destruct (download_file_raises _ _ _ _ _ _ _ Hp) as [(_ & -> & _) | (_ & _ & ->)];
      reflexivity.
Qed.

Section GetEffects.

Variable date_adjustment : string -> string -> string -> string * string * bool.
Variable executor_map :
  S3FileSystem -> list string -> string -> nat -> bool -> M (list string).

(** X14: [ecco_podaac_s3_get] creates the directory of the dataset before it
    asks the catalogue for anything: unless a regular file is in the way, at
    the directory or above it, the directory [download_root_dir/ShortName]
    exists after the call whatever its outcome, also when the query or a
    download has raised. *)
Theorem get_creates_the_directory_first
    (fuel : nat) (ShortName StartDate EndDate interval : string)
    (download_root_dir : option string) (n_workers : nat)
    (force_redownload return_downloaded_files : bool) (w : World) :
  file_in_the_way w (Path.div (root_of download_root_dir w) ShortName) = false ->
  match ecco_podaac_s3_get date_adjustment executor_map fuel ShortName StartDate
          EndDate interval download_root_dir n_workers force_redownload
          return_downloaded_files w with
  | Return _ w1 | Raise _ w1 =>
      isdir w1 (Path.div (root_of download_root_dir w) ShortName) = true
  | OutOfFuel => True
  end.
Proof.
  intros Hfree. unfold ecco_podaac_s3_get.
  set (dl := Path.div (root_of download_root_dir w) ShortName) in *.
  unfold file_in_the_way in Hfree. apply orb_false_iff in Hfree as (Hleaf & Habove).
  unfold bind at 1.
  assert (Hroot : root_dir download_root_dir w
                  = Return (root_of download_root_dir w) w)
    by now destruct download_root_dir.
  rewrite Hroot. fold dl.
  unfold bind at 1. unfold mkdir_p at 1. rewrite Hleaf, Habove.
  set (wm := with_dirs (dl :: ancestors (String.length dl) dl ++ dirs w) w).
  assert (Hdir : isdir wm dl = true) by apply mem_head.
  unfold bind at 1.
  pose proof (query_frame date_adjustment fuel ShortName StartDate EndDate
                "monthly" wm) as Hq.
  destruct (ecco_podaac_s3_query _ _ _ _ _ _ wm) as [l wq | e wq |];
    [| | exact I];
    unfold only_catalogue_between in Hq.
  2:{ rewrite Hq. exact Hdir. }
  assert (Hdq : isdir wq dl = true) by (rewrite Hq; exact Hdir).
  unfold bind at 1. unfold init_S3FileSystem at 1.
  unfold bind at 1. rewrite wrapper_module. unfold bind at 1.
  pose proof (sequential_dirs (store wq) dl force_redownload l wq) as Hs.
  destruct (download_sequentially _ _ _ _ wq) as [ps w1 | e w1 |]; [| | exact I].
  - unfold ret at 1.
    assert (Hd1 : isdir w1 dl = true) by (unfold isdir in *; now rewrite Hs).
    now destruct return_downloaded_files.
  - unfold isdir in *. now rewrite Hs.
Qed.

End GetEffects.

Lemma get_creates_the_directory_first_witness :
  exists e w1,
    ecco_podaac_s3_get Scenario.dates_as_given Scenario.orderly_pool 1
      "ECCO_L4_SSH_05DEG_MONTHLY_V4R4" "1992-01" "1992-01" "monthly"
      (Some "/data") 6 false true
      (Scenario.fresh 0 [mkResponse None (Some ["Collection not found"])])
    = Raise e w1
    /\ isdir w1 "/data/ECCO_L4_SSH_05DEG_MONTHLY_V4R4" = true.
Proof.
  pose proof (get_creates_the_directory_first Scenario.dates_as_given
                Scenario.orderly_pool 1 "ECCO_L4_SSH_05DEG_MONTHLY_V4R4"
                "1992-01" "1992-01" "monthly" (Some "/data") 6 false true
                (Scenario.fresh 0 [mkResponse None (Some ["Collection not found"])])
                eq_refl) as H.
  remember (ecco_podaac_s3_get _ _ _ _ _ _ _ _ _ _ _ _) as out eqn:E in H |- *.
  vm_compute in E. subst out. eexists _, _. split; [reflexivity | exact H].
Defined.

(** With a regular file given as the root, nothing is created and nothing is
    asked: the call ends in the error of [mkdir]. *)
Example get_with_a_file_as_root :
  ecco_podaac_s3_get Scenario.dates_as_given Scenario.orderly_pool 1
    "ECCO_L4_SSH_05DEG_MONTHLY_V4R4" "1992-01" "1992-01" "monthly"
    (Some "/data/file.txt") 6 false true Scenario.file_as_root
  = Raise (NotADirectoryError "/data/file.txt/ECCO_L4_SSH_05DEG_MONTHLY_V4R4")
          Scenario.file_as_root.
Proof. vm_compute. reflexivity. Qed.

Lemma no_get_file_refl w : no_get_file_between w w.
Proof. exists []. split; [now rewrite app_nil_r | constructor]. Qed.

Lemma no_get_file_trans w w1 w2 :
  no_get_file_between w w1 -> no_get_file_between w1 w2 ->
  no_get_file_between w w2.
Proof.
  intros (c & Hc & Hn) (c' & Hc' & Hn').
  exists (c ++ c').
  split; [now rewrite Hc', Hc, app_assoc | now apply Forall_app].
Qed.

Lemma only_catalogue_no_get_file w w1 :
  only_catalogue_between w w1 -> no_get_file_between w w1.
Proof.
  unfold only_catalogue_between. intros H. exists [].
  split; [rewrite H at 1; simpl; now rewrite app_nil_r | constructor].
Qed.

Lemma with_dirs_no_get_file d w : no_get_file_between w (with_dirs d w).
Proof. exists []. split; [simpl; now rewrite app_nil_r | constructor]. Qed.

Lemma dataset_size_no_get_file s3 dir (l : list string) :
  forall acc w v w1,
    dataset_size s3 dir l acc w = Return v w1 -> no_get_file_between w w1.
Proof.
  induction l as [| f l IH]; intros acc w v w1 H; cbn [dataset_size] in H.
  - inversion H; subst. apply no_get_file_refl.
  - destruct (isfile w (Path.join dir (Path.basename f))); cbn [negb] in H.
    + now apply IH in H.
    + apply bind_inv in H as (size & wa & Hi & H).
      apply IH in H.
      eapply no_get_file_trans; [| exact H].
      unfold s3_info_size, bind, log_call, ret, raise in Hi.
      destruct (lookup_object s3 f); inversion Hi; subst.
      exists [GetInfo f].
      split; [reflexivity |]. repeat constructor. intros [].
Qed.

Lemma open_all_no_get_file s3 :
  forall todo d w d' w1,
    open_all s3 todo d w = Return d' w1 -> no_get_file_between w w1.
Proof.
  induction todo as [| [k fs] todo IH]; intros d w d' w1 H; simpl in H.
  - inversion H; subst. apply no_get_file_refl.
  - apply bind_inv in H as (r & wa & Hr & H).
    apply IH in H. eapply no_get_file_trans; [| exact H].
    apply open_each_returns in Hr as (_ & ->).
    exists (map OpenFile fs).
    split; [reflexivity |]. apply Forall_forall.
    intros c Hc. apply in_map_iff in Hc as (u & <- & _). intros [].
Qed.

Lemma probe_frame fuel :
  forall query_dir w r w1,
    probe_free_space fuel query_dir w = Return r w1 -> w1 = w.
Proof.
  induction fuel as [| fuel IH]; intros query_dir w r w1 H; [discriminate |].
  cbn [probe_free_space] in H. unfold disk_usage_free, parent_dir, ret in H.
  destruct (exists_at w query_dir).
  - now inversion H.
  - now apply IH in H.
Qed.

Section RemoteBranch.

Variable date_adjustment : string -> string -> string -> string * string * bool.
Variable executor_map :
  S3FileSystem -> list string -> string -> nat -> bool -> M (list string).

Lemma survey_no_get_file fuel s3 StartDate EndDate interval root :
  forall names w v w1,
    survey date_adjustment fuel s3 names StartDate EndDate interval root w
    = Return v w1 ->
    no_get_file_between w w1.
Proof.
  induction names as [| name names IH]; intros w v w1 H; simpl in H.
  - inversion H; subst. apply no_get_file_refl.
  - apply bind_inv in H as (fs & wa & Hq & H).
    apply bind_inv in H as (u & wb & Hm & H).
    apply bind_inv in H as (size & wc & Hsz & H).
    apply bind_inv in H as ([sizes lists] & wd & Hrest & H).
    inversion H; subst.
    pose proof (query_frame date_adjustment fuel name StartDate EndDate
                  interval w) as Hf.
    rewrite Hq in Hf.
    eapply no_get_file_trans; [apply only_catalogue_no_get_file, Hf |].
    eapply no_get_file_trans;
      [| eapply no_get_file_trans;
         [eapply dataset_size_no_get_file, Hsz | eapply IH, Hrest]].
    unfold mkdir_p in Hm. destruct (isfile wa _); [discriminate |].
    destruct (existsb _ _); inversion Hm; subst.
    apply with_dirs_no_get_file.
Qed.

(** X15: a call that opens anything remotely has fetched nothing.  If any
    value of the dict [ecco_podaac_s3_get_diskaware] returns holds a remote
    file, then over the whole call the handle was never used for
    [get_file]: it was asked for sizes and for open files only. *)
Theorem remote_dispatch_never_fetches
    (fuel : nat) (ShortNames : list string) (StartDate EndDate : string)
    (snapshot_interval download_root_dir : option string) (max_avail_frac : Q)
    (n_workers : nat) (force_redownload : bool)
    (d : list (string * retrieval)) (w w1 : World)
    (name url : string) (r : retrieval) :
  ecco_podaac_s3_get_diskaware date_adjustment executor_map fuel ShortNames
    StartDate EndDate snapshot_interval download_root_dir max_avail_frac
    n_workers force_redownload w = Return (Retrieved d) w1 ->
  In (name, r) d -> In (RemoteFile url) (items r) ->
  no_get_file_between w w1.
Proof.
  intros H Hin Hitem. unfold ecco_podaac_s3_get_diskaware in H.
  apply bind_inv in H as (s3 & wa & Hi & H). inversion Hi; subst.
  apply bind_inv in H as (root & wb & Hr & H).
  assert (wb = wa) by (destruct download_root_dir; now inversion Hr). subst wb.
  apply bind_inv in H as ([sizes lists] & wc & Hs & H).
  apply bind_inv in H as (probe & wd & Hp & H).
  apply probe_frame in Hp. subst wd.
  apply survey_no_get_file in Hs.
  destruct probe as [avail |]; [| discriminate].
  destruct (within_budget _ _ _);
    apply bind_inv in H as (d' & we & Hd & H); inversion H; subst.
  - exfalso.
    pose proof (download_all_values executor_map
                  (fun kv => Forall is_local (items (snd kv)))
                  _ _ _ _ (fun _ l => local_items l) _ _ _ _ _ Hd (Forall_nil _))
      as Hall.
    rewrite Forall_forall in Hall. specialize (Hall _ Hin). simpl in Hall.
    rewrite Forall_forall in Hall. exact (Hall _ Hitem).
  - eapply no_get_file_trans; [exact Hs |]. eapply open_all_no_get_file, Hd.
Qed.

End RemoteBranch.

Lemma remote_dispatch_never_fetches_witness :
  exists d w1,
    ecco_podaac_s3_get_diskaware Scenario.dates_as_given Scenario.orderly_pool 2
      ["ECCO_L4_SSH_05DEG_SNAPSHOT_V4R4"; "ECCO_L4_SSH_LLC0090GRID_SNAPSHOT_V4R4"]
      "1992-01" "1992-02" None (Some "/data") (1 # 2) 6 false Scenario.sixty_GiB
    = Return (Retrieved d) w1
    /\ no_get_file_between Scenario.sixty_GiB w1.
Proof.
  eexists _, _. split; [vm_compute; reflexivity |].
  eapply (remote_dispatch_never_fetches Scenario.dates_as_given
            Scenario.orderly_pool 2
            ["ECCO_L4_SSH_05DEG_SNAPSHOT_V4R4";
             "ECCO_L4_SSH_LLC0090GRID_SNAPSHOT_V4R4"]
            "1992-01" "1992-02" None (Some "/data") (1 # 2) 6 false _
            Scenario.sixty_GiB _ "ECCO_L4_SSH_05DEG_SNAPSHOT_V4R4"
            "s3://podaac/SSH_SNAPSHOT_1992-01-01.nc").
  - vm_compute. reflexivity.
  - left. reflexivity.
  - left. reflexivity.
Defined.

(** ** The probe on absolute paths *)

Lemma startswith_sep (c : ascii) (r : string) :
  Str.startswith "/" (String c r) = Ascii.eqb c Path.sep.
Proof.
  cbn [Str.startswith]. rewrite andb_true_r. apply Ascii.eqb_sym.
Qed.

Lemma contains_sep_head (r : string) : Str.contains "/" (String Path.sep r) = true.
Proof. reflexivity. Qed.

Lemma upto_last_sep_all_sep (r : string) :
  Str.startswith "/" r = false ->
  Path.all_sep (Path.upto_last_sep r) = true ->
  Path.upto_last_sep r = "".
Proof.
  destruct r as [| c r]; [reflexivity |]. intros Hs.
  rewrite startswith_sep in Hs. cbn [Path.upto_last_sep].
  destruct (Str.contains "/" (String c r)); [| reflexivity].
  cbn [Path.all_sep]. rewrite Hs. discriminate.
Qed.

Lemma upto_last_sep_head (r : string) :
  Str.startswith "/" r = false ->
  Str.startswith "/" (Path.upto_last_sep r) = false.
Proof.
  destruct r as [| c r]; [reflexivity |]. intros Hs.
  cbn [Path.upto_last_sep].
  destruct (Str.contains "/" (String c r)); [| reflexivity].
  rewrite startswith_sep in *. exact Hs.
Qed.

Lemma rstrip_sep_head (h : string) :
  Str.startswith "/" h = false ->
  Str.startswith "/" (Path.rstrip_sep h) = false.
Proof.
  destruct h as [| c h]; [reflexivity |]. intros Hs.
  cbn [Path.rstrip_sep].
  destruct (Path.all_sep (String c h)); [reflexivity |].
  rewrite startswith_sep in *. exact Hs.
Qed.

Lemma head_shorter (r : string) :
  r <> "" ->
  (String.length (Path.rstrip_sep (Path.upto_last_sep r)) < String.length r)%nat.
Proof.
  induction r as [| c r IH]; [congruence |]. intros _.
  cbn [Path.upto_last_sep].
  destruct (Str.contains "/" (String c r)) eqn:Hc; [| simpl; lia].
  cbn [Path.rstrip_sep].
  destruct (Path.all_sep (String c (Path.upto_last_sep r))) eqn:Ha;
    [simpl; lia |].
  destruct r as [| c' r'].
  - cbn [Path.upto_last_sep Path.all_sep] in Ha. rewrite andb_true_r in Ha.
    cbn [Str.contains] in Hc. rewrite startswith_sep, orb_false_r in Hc.
    congruence.
  - cbn [String.length]. apply -> Nat.succ_lt_mono. apply IH. discriminate.
Qed.

(** The parent of an absolute path is an absolute path, and a shorter one
    unless the path is the root. *)
Lemma parent_rooted (p : string) :
  rooted p -> p <> "/" ->
  rooted (Path.parent p)
  /\ (String.length (Path.parent p) < String.length p)%nat.
Proof.
  intros (r & -> & Hr) Hne.
  unfold Path.parent, Path.split. cbn [fst Path.upto_last_sep].
  rewrite contains_sep_head.
  set (h := Path.upto_last_sep r).
  cbn [Path.all_sep]. unfold Path.sep at 1. rewrite Ascii.eqb_refl. cbn [andb].
  destruct (Path.all_sep h) eqn:Ha.
  - assert (Hh : h = "") by now apply upto_last_sep_all_sep.
    rewrite Hh. split.
    + exists "". now split.
    + destruct r; [congruence | simpl; lia].
  - cbn [Path.rstrip_sep Path.all_sep]. unfold Path.sep at 1.
    rewrite Ascii.eqb_refl. cbn [andb]. rewrite Ha. split.
    + exists (Path.rstrip_sep h). split; [reflexivity |].
      apply rstrip_sep_head. now apply upto_last_sep_head.
    + cbn [String.length]. apply -> Nat.succ_lt_mono. apply head_shorter.
      intros ->. discriminate Ha.
Qed.

(** X16: on an absolute path the probe ends.  For a [download_root_dir]
    with a single leading separator, on a machine where [/] exists, the
    loop finds the free space within as many turns as the path has
    characters, whether the path or any of its ancestors below [/] exists
    or not. *)
Theorem probe_ends_on_absolute_paths (w : World) (p : string) (fuel : nat) :
  rooted p ->
  isdir w "/" = true ->
  (String.length p <= fuel)%nat ->
  probe_free_space fuel p w = Return (Available (free_bytes w)) w.
Proof.
  intros Hp Hroot. revert p Hp.
  induction fuel as [| fuel IH]; intros p Hp Hlen.
  - destruct Hp as (r & -> & _). simpl in Hlen. lia.
  - cbn [probe_free_space]. unfold disk_usage_free, parent_dir, ret.
    destruct (exists_at w p) eqn:Hex; [reflexivity |].
    assert (Hne : p <> "/").
    { intros ->. unfold exists_at in Hex. cbn in Hex.
      rewrite Hroot in Hex. discriminate. }
    destruct (parent_rooted p Hp Hne) as (Hpar & Hshort).
    apply IH; [exact Hpar | lia].
Qed.

Lemma probe_ends_on_absolute_paths_witness :
  probe_free_space 41 "/home/user/Downloads/ECCO_V4r4_PODAAC"
                   (Scenario.fresh 7 [])
  = Return (Available 7) (Scenario.fresh 7 []).
Proof.
  apply (probe_ends_on_absolute_paths (Scenario.fresh 7 [])
           "/home/user/Downloads/ECCO_V4r4_PODAAC" 41).
  - exists "home/user/Downloads/ECCO_V4r4_PODAAC". now split.
  - reflexivity.
  - simpl. lia.
Defined.

(** ** Reference files *)

Lemma split_nonempty (c : ascii) (s : string) : Py.split c s <> [].
Proof.
  destruct s as [| a r]; simpl; [discriminate |].
  destruct (Ascii.eqb a c); [discriminate |].
  destruct (Py.split c r); discriminate.
Qed.

Lemma split_free (c : ascii) (s : string) :
  free_of c s = true -> Py.split c s = [s].
Proof.
  induction s as [| a r IH]; [reflexivity |]. simpl.
  intros H. apply andb_prop in H as [Ha Hr].
  apply negb_true_iff in Ha. rewrite Ha, (IH Hr). reflexivity.
Qed.

Lemma split_app (c : ascii) (y : string) :
  forall p, Py.split c (p ++ String c y) = Py.split c p ++ Py.split c y.
Proof.
  induction p as [| a p IH]; simpl.
  - now rewrite Ascii.eqb_refl.
  - destruct (Ascii.eqb a c); [now rewrite IH |].
    rewrite IH. pose proof (split_nonempty c p) as Hne.
    destruct (Py.split c p); [congruence | reflexivity].
Qed.

Lemma split_three_fields (prefix grid res version : string) :
  free_of "_" grid = true -> free_of "_" res = true ->
  free_of "_" version = true ->
  Py.split "_" (prefix ++ "_" ++ grid ++ "_" ++ res ++ "_" ++ version)%string
  = Py.split "_" prefix ++ [grid; res; version].
Proof.
  intros Hg Hr Hv.
  change (prefix ++ "_" ++ grid ++ "_" ++ res ++ "_" ++ version)%string
    with (prefix ++ String "_" (grid ++ String "_" (res ++ String "_" version)))%string.
  rewrite !split_app, (split_free _ _ Hg), (split_free _ _ Hr),
    (split_free _ _ Hv).
  reflexivity.
Qed.

Section FsspecProps.

Variable glob : string -> list string.

(** X17: for a name whose last three fields are the grid type, the time
    resolution and the version, and which is neither a geometry nor a mixing
    coefficients dataset, [ecco_podaac_s3_open_fsspec] builds its mapper on
    [jsons_root_dir/MZZ_<grid>_<resolution>/<ShortName>.json], whatever the
    fields before are. *)
Theorem fsspec_reference_of_a_dataset
    (prefix grid res version jsons_root_dir : string) (w : World) :
  free_of "_" grid = true -> free_of "_" res = true ->
  free_of "_" version = true ->
  let ShortName :=
    (prefix ++ "_" ++ grid ++ "_" ++ res ++ "_" ++ version)%string in
  is_invariant ShortName = false ->
  ecco_podaac_s3_open_fsspec glob ShortName jsons_root_dir w
  = Return (ReferenceMap
              (Path.join (Path.join jsons_root_dir ("MZZ_" ++ grid ++ "_" ++ res))
                         (ShortName ++ ".json")%string)
              (store w)) w.
Proof.
  intros Hg Hr Hv ShortName Hinv.
  unfold ecco_podaac_s3_open_fsspec, find_json_file.
  fold ShortName. rewrite Hinv.
  unfold is_invariant in Hinv. apply orb_false_elim in Hinv as [Hgeo Hmix].
  rewrite Hgeo, Hmix.
  unfold ShortName at 1 2. rewrite (split_three_fields _ _ _ _ Hg Hr Hv).
  unfold Py.index_from_end, Py.from_end. rewrite rev_app_distr.
  reflexivity.
Qed.

(** X18: a name with fewer than three fields between underscores, that is
    neither a geometry nor a mixing coefficients dataset, makes
    [ecco_podaac_s3_open_fsspec] raise [IndexError] before anything is
    read. *)
Theorem fsspec_needs_three_fields (ShortName jsons_root_dir : string) (w : World) :
  is_invariant ShortName = false ->
  (length (Py.split "_" ShortName) < 3)%nat ->
  ecco_podaac_s3_open_fsspec glob ShortName jsons_root_dir w = Raise IndexError w.
Proof.
  intros Hinv Hlen.
  unfold ecco_podaac_s3_open_fsspec, find_json_file.
  unfold is_invariant in Hinv. apply orb_false_elim in Hinv as [Hgeo Hmix].
  rewrite Hgeo, Hmix.
  unfold Py.index_from_end, Py.from_end.
  assert (Hnone : nth_error (rev (Py.split "_" ShortName)) (3 - 1) = None).
  { apply nth_error_None. rewrite length_rev. simpl. lia. }
  unfold bind at 1 2 3. now rewrite Hnone.
Qed.

(** X19: for a geometry dataset the grid type is the field before the last
    and decides everything.  With ['LLC'] in it the mapper is built on the
    first file [glob] finds for [*native*.json] in
    [jsons_root_dir/MZZ_<grid>_GEOMETRY], and the call raises [IndexError]
    if there is none; with neither ['LLC'] nor ['DEG'] in it [json_file] was
    never assigned and the call raises a [NameError]. *)
Theorem fsspec_geometry_follows_the_grid
    (ShortName grid jsons_root_dir : string) (w : World) :
  Str.contains "GEOMETRY" ShortName = true ->
  Py.from_end 2 (Py.split "_" ShortName) = Some grid ->
  let pattern :=
    Path.join (Path.join jsons_root_dir ("MZZ_" ++ grid ++ "_GEOMETRY"))
              "*native*.json" in
  (Str.contains "LLC" grid = true ->
   ecco_podaac_s3_open_fsspec glob ShortName jsons_root_dir w
   = match glob pattern with
     | json_file :: _ => Return (ReferenceMap json_file (store w)) w
     | [] => Raise IndexError w
     end)
  /\ (Str.contains "LLC" grid = false -> Str.contains "DEG" grid = false ->
      ecco_podaac_s3_open_fsspec glob ShortName jsons_root_dir w
      = Raise (NameError "json_file") w).
Proof.
  intros Hgeo Hgrid pattern.
  unfold ecco_podaac_s3_open_fsspec, find_json_file, is_invariant.
  rewrite Hgeo. cbn [orb]. unfold Py.index_from_end. rewrite Hgrid.
  split.
  - intros Hllc. unfold bind at 1 2 3. unfold ret at 1 2. rewrite Hllc.
    change (Path.join (Path.join jsons_root_dir
                                 (Py.join "_" ["MZZ"; grid; "GEOMETRY"]))
                      "*native*.json") with pattern.
    unfold bind, Py.first.
    now destruct (glob pattern).
  - intros Hllc Hdeg. unfold bind at 1 2 3. unfold ret at 1 2.
    now rewrite Hllc, Hdeg.
Qed.

End FsspecProps.

Lemma fsspec_reference_of_a_dataset_witness :
  ecco_podaac_s3_open_fsspec (fun _ => []) "ECCO_L4_SSH_05DEG_MONTHLY_V4R4"
    "/jsons" (Scenario.fresh 0 [])
  = Return (ReferenceMap
              "/jsons/MZZ_05DEG_MONTHLY/ECCO_L4_SSH_05DEG_MONTHLY_V4R4.json"
              Scenario.bucket)
           (Scenario.fresh 0 []).
Proof.
  apply (fsspec_reference_of_a_dataset (fun _ => []) "ECCO_L4_SSH" "05DEG"
           "MONTHLY" "V4R4" "/jsons" (Scenario.fresh 0 []));
    reflexivity.
Defined.

Lemma fsspec_needs_three_fields_witness :
  ecco_podaac_s3_open_fsspec (fun _ => []) "SSH_MONTHLY" "/jsons"
                             (Scenario.fresh 0 [])
  = Raise IndexError (Scenario.fresh 0 []).
Proof.
  apply (fsspec_needs_three_fields (fun _ => []) "SSH_MONTHLY" "/jsons"
           (Scenario.fresh 0 [])).
  - reflexivity.
  - simpl. lia.
Defined.

Lemma fsspec_geometry_follows_the_grid_witness :
  ecco_podaac_s3_open_fsspec
    (fun _ => ["/jsons/MZZ_LLC0090GRID_GEOMETRY/GRID_GEOMETRY_ECCO_V4r4_native_llc0090.json"])
    "ECCO_L4_GEOMETRY_LLC0090GRID_V4R4" "/jsons" (Scenario.fresh 0 [])
  = Return (ReferenceMap
              "/jsons/MZZ_LLC0090GRID_GEOMETRY/GRID_GEOMETRY_ECCO_V4r4_native_llc0090.json"
              Scenario.bucket)
           (Scenario.fresh 0 [])
  /\ ecco_podaac_s3_open_fsspec (fun _ => []) "ECCO_L4_GEOMETRY_TILES_V4R4"
       "/jsons" (Scenario.fresh 0 [])
     = Raise (NameError "json_file") (Scenario.fresh 0 []).
Proof.
  split.
  - apply (proj1 (fsspec_geometry_follows_the_grid
                    (fun _ => ["/jsons/MZZ_LLC0090GRID_GEOMETRY/GRID_GEOMETRY_ECCO_V4r4_native_llc0090.json"])
                    "ECCO_L4_GEOMETRY_LLC0090GRID_V4R4" "LLC0090GRID" "/jsons"
                    (Scenario.fresh 0 []) eq_refl eq_refl) eq_refl).
  - apply (proj2 (fsspec_geometry_follows_the_grid (fun _ => [])
                    "ECCO_L4_GEOMETRY_TILES_V4R4" "TILES" "/jsons"
                    (Scenario.fresh 0 []) eq_refl eq_refl) eq_refl eq_refl).
Defined.
